(** * The webview message bridge of vscode-plugin-new-project

    A shallow embedding of the two ends of the bridge:

    - [webview-ui/src/utilities/vscode.ts]: the [VSCodeAPIWrapper] singleton
      ([postMessage], [invoke], [getState], [setState]);
    - [src/panels/CreateProjectPanel.ts]: the handler map and the listener
      installed by [_setWebviewMessageListener], the life cycle of the
      panel ([render], the constructor, [dispose]) and the [createProject]
      handler.

    JavaScript values are a first-order data type, the mutable state of each
    side is a record threaded through the operations, and promises are
    entries of a store of settled values.  What the code takes from its
    environment is an input of the model: whether [acquireVsCodeApi] is
    defined, what [Date.now()] and [Math.random()] return, what the user
    answers to a dialog.  The runtime's [JSON] object is modelled on the
    values of the embedding, and the channel between the two sides carries
    JSON copies. *)

From Stdlib Require Import ZArith String Ascii List Decimal DecimalString DecimalN DecimalZ Lia.
From stdpp Require Import gmap strings list.

(** ** JavaScript values *)

(** The values that travel over the bridge.  Numbers are the integral ones;
    a string is the sequence of its bytes; an object is the list of its own
    enumerable properties, in order. *)
#[local] Unset Elimination Schemes.
Inductive value : Type :=
| VUndefined
| VNull
| VBool (b : bool)
| VNum (n : Z)
| VStr (s : string)
| VArr (items : list value)
| VObj (fields : list (string * value)).
#[local] Set Elimination Schemes.

(** How an [await]ed call ends: with a value, with an error (its message),
    or never. *)
Inductive completion : Type :=
| Returned (v : value)
| Thrown (message : string)
| Unsettled.

(** ** The runtime's JSON codec

    [JSON.stringify] and [JSON.parse] are built-ins of the runtime; this is
    their behaviour on the values above. *)
Module JSON.

Definition keys_distinct (fs : list (string * value)) : bool :=
  bool_decide (NoDup (map fst fs)).

(** A JSON-serializable value: no [undefined] anywhere, every number an
    integer that a double holds exactly (and so prints in plain decimal
    notation), and every object with pairwise distinct property names. *)
Fixpoint serializable (v : value) : bool :=
  match v with
  | VUndefined => false
  | VNull | VBool _ | VStr _ => true
  | VNum n => (Z.abs n <? 2 ^ 53)%Z
  | VArr items => forallb serializable items
  | VObj fields =>
      keys_distinct fields && forallb (fun kv => serializable (snd kv)) fields
  end.

Definition hex_digit (n : N) : ascii :=
  match n with
  | 0 => "0" | 1 => "1" | 2 => "2" | 3 => "3" | 4 => "4" | 5 => "5"
  | 6 => "6" | 7 => "7" | 8 => "8" | 9 => "9" | 10 => "a" | 11 => "b"
  | 12 => "c" | 13 => "d" | 14 => "e" | _ => "f"
  end%N%char.

Definition dquote : ascii := "034".
Definition backslash : ascii := "092".

(** QuoteJSONString, one code unit at a time. *)
Definition quote_char (c : ascii) : string :=
  if (c =? dquote)%char then String backslash (String dquote "")
  else if (c =? backslash)%char then String backslash (String backslash "")
  else if (c =? "008")%char then String backslash "b"
  else if (c =? "009")%char then String backslash "t"
  else if (c =? "010")%char then String backslash "n"
  else if (c =? "012")%char then String backslash "f"
  else if (c =? "013")%char then String backslash "r"
  else if (N_of_ascii c <? 32)%N then
    String backslash (String "u" (String "0" (String "0"
      (String (hex_digit (N_of_ascii c / 16))
         (String (hex_digit (N_of_ascii c mod 16)) "")))))
  else String c "".

Fixpoint quote_body (s : string) : string :=
  match s with
  | EmptyString => ""
  | String c s' => quote_char c +:+ quote_body s'
  end.

Definition quote (s : string) : string :=
  String dquote (quote_body s +:+ String dquote "").

Fixpoint join (parts : list string) : string :=
  match parts with
  | [] => ""
  | [p] => p
  | p :: rest => p +:+ "," +:+ join rest
  end.

Definition show_Z (n : Z) : string := NilZero.string_of_int (Z.to_int n).

(** The text of a value.  An [undefined] array element is written as
    [null]; a property whose value is [undefined] is left out. *)
Fixpoint text (v : value) : string :=
  match v with
  | VUndefined | VNull => "null"
  | VBool true => "true"
  | VBool false => "false"
  | VNum n => show_Z n
  | VStr s => quote s
  | VArr items => "[" +:+ join (map text items) +:+ "]"
  | VObj fields =>
      "{" +:+ join (flat_map (fun kv =>
                      match kv with
                      | (_, VUndefined) => []
                      | (k, x) => [quote k +:+ ":" +:+ text x]
                      end) fields) +:+ "}"
  end.

(** [JSON.stringify(v)]: [None] stands for the result [undefined]. *)
Definition stringify (v : value) : option string :=
  match v with
  | VUndefined => None
  | _ => Some (text v)
  end.

Definition digit (c : ascii) : option (uint -> uint) :=
  match c with
  | "0" => Some D0 | "1" => Some D1 | "2" => Some D2 | "3" => Some D3
  | "4" => Some D4 | "5" => Some D5 | "6" => Some D6 | "7" => Some D7
  | "8" => Some D8 | "9" => Some D9 | _ => None
  end%char.

(** The longest run of decimal digits at the head of [s]. *)
Fixpoint parse_digits (s : string) : uint * string :=
  match s with
  | String c r =>
      match digit c with
      | Some k => let (d, r') := parse_digits r in (k d, r')
      | None => (Nil, s)
      end
  | EmptyString => (Nil, s)
  end.

(** A number without leading zeros; fractions and exponents are outside
    the integral fragment. *)
Definition number_of (neg : bool) (d : uint) (r : string) : option (Z * string) :=
  match d with
  | Nil => None
  | _ =>
      if uint_eq_dec (unorm d) d
      then Some (Z.of_int (if neg then Neg d else Pos d), r)
      else None
  end.

Definition parse_number (s : string) : option (Z * string) :=
  match s with
  | String c s' =>
      if (c =? "-")%char
      then let (d, r) := parse_digits s' in number_of true d r
      else let (d, r) := parse_digits s in number_of false d r
  | EmptyString => None
  end.

Definition hex_value (c : ascii) : option N :=
  let n := N_of_ascii c in
  if ((48 <=? n) && (n <=? 57))%N then Some (n - 48)%N          (* 0 to 9 *)
  else if ((97 <=? n) && (n <=? 102))%N then Some (n - 87)%N    (* a to f *)
  else if ((65 <=? n) && (n <=? 70))%N then Some (n - 55)%N     (* A to F *)
  else None.

Definition cons_char (c : ascii) (r : option (string * string)) :
    option (string * string) :=
  match r with
  | Some (s, rest) => Some (String c s, rest)
  | None => None
  end.

(** The character an escape letter stands for; [u] is read apart. *)
Definition unescape (e : ascii) : option ascii :=
  if (e =? dquote)%char then Some dquote
  else if (e =? backslash)%char then Some backslash
  else if (e =? "/")%char then Some "/"%char
  else if (e =? "b")%char then Some "008"%char
  else if (e =? "t")%char then Some "009"%char
  else if (e =? "n")%char then Some "010"%char
  else if (e =? "f")%char then Some "012"%char
  else if (e =? "r")%char then Some "013"%char
  else None.

(** The body of a string literal up to its closing quote.  A [u] escape
    is read when it denotes a one-byte code unit, the ones [string] has. *)
Fixpoint parse_body (s : string) : option (string * string) :=
  match s with
  | EmptyString => None
  | String c r =>
      if (c =? dquote)%char then Some ("", r)
      else if (c =? backslash)%char then
        match r with
        | String e r1 =>
            if (e =? "u")%char then
              match r1 with
              | String z1 (String z2 (String h1 (String h2 r2))) =>
                  if (z1 =? "0")%char && (z2 =? "0")%char then
                    match hex_value h1, hex_value h2 with
                    | Some a, Some b =>
                        cons_char (ascii_of_N (16 * a + b)) (parse_body r2)
                    | _, _ => None
                    end
                  else None
              | _ => None
              end
            else
              match unescape e with
              | Some x => cons_char x (parse_body r1)
              | None => None
              end
        | EmptyString => None
        end
      else if (N_of_ascii c <? 32)%N then None
      else cons_char c (parse_body r)
  end.

Definition parse_string (s : string) : option (string * string) :=
  match s with
  | String c r => if (c =? dquote)%char then parse_body r else None
  | EmptyString => None
  end.

(** [s] without the literal [lit] at its head. *)
Fixpoint strip (lit s : string) : option string :=
  match lit, s with
  | EmptyString, _ => Some s
  | String a lit', String b s' => if (a =? b)%char then strip lit' s' else None
  | String _ _, EmptyString => None
  end.

Definition parse_literal (lit : string) (v : value) (s : string) :
    option (value * string) :=
  match strip lit s with
  | Some r => Some (v, r)
  | None => None
  end.

(** [fs] with the property [k] set to [v]: a name that occurs again takes
    the later value and keeps its place. *)
Fixpoint define (k : string) (v : value) (fs : list (string * value)) :
    list (string * value) :=
  match fs with
  | [] => [(k, v)]
  | (k', v') :: rest =>
      if String.eqb k k' then (k', v) :: rest else (k', v') :: define k v rest
  end.

(** The object a list of members denotes. *)
Definition object_of (members : list (string * value)) : list (string * value) :=
  fold_left (fun fs kv => define (fst kv) (snd kv) fs) members [].

(** Insignificant white space: space, tab, line feed, carriage return. *)
Definition blank (c : ascii) : bool :=
  (c =? " ")%char || (c =? "009")%char || (c =? "010")%char || (c =? "013")%char.

Fixpoint skip_blanks (s : string) : string :=
  match s with
  | String c r => if blank c then skip_blanks r else s
  | EmptyString => s
  end.

(** Recursive descent over the text; [fuel] bounds the nesting and the
    number of elements still to be read. *)
Fixpoint parse_value (fuel : nat) (s : string) : option (value * string) :=
  match fuel with
  | O => None
  | S fuel' =>
      match skip_blanks s with
      | EmptyString => None
      | String c r =>
          if (c =? "n")%char then parse_literal "null" VNull (String c r)
          else if (c =? "t")%char then parse_literal "true" (VBool true) (String c r)
          else if (c =? "f")%char then parse_literal "false" (VBool false) (String c r)
          else if (c =? dquote)%char then
            match parse_body r with
            | Some (str, r') => Some (VStr str, r')
            | None => None
            end
          else if (c =? "[")%char then
            match strip "]" (skip_blanks r) with
            | Some r' => Some (VArr [], r')
            | None =>
                match parse_elements fuel' r with
                | Some (items, r') => Some (VArr items, r')
                | None => None
                end
            end
          else if (c =? "{")%char then
            match strip "}" (skip_blanks r) with
            | Some r' => Some (VObj [], r')
            | None =>
                match parse_members fuel' r with
                | Some (members, r') => Some (VObj (object_of members), r')
                | None => None
                end
            end
          else
            match parse_number (String c r) with
            | Some (n, r') => Some (VNum n, r')
            | None => None
            end
      end
  end
with parse_elements (fuel : nat) (s : string) : option (list value * string) :=
  match fuel with
  | O => None
  | S fuel' =>
      match parse_value fuel' s with
      | Some (v, after) =>
          match skip_blanks after with
          | String c r =>
              if (c =? ",")%char then
                match parse_elements fuel' r with
                | Some (vs, r') => Some (v :: vs, r')
                | None => None
                end
              else if (c =? "]")%char then Some ([v], r)
              else None
          | EmptyString => None
          end
      | None => None
      end
  end
with parse_members (fuel : nat) (s : string) : option (list (string * value) * string) :=
  match fuel with
  | O => None
  | S fuel' =>
      match parse_string (skip_blanks s) with
      | Some (k, after_key) =>
          match skip_blanks after_key with
          | String colon r0 =>
              if (colon =? ":")%char then
                match parse_value fuel' r0 with
                | Some (v, after) =>
                    match skip_blanks after with
                    | String c r =>
                        if (c =? ",")%char then
                          match parse_members fuel' r with
                          | Some (fs, r') => Some ((k, v) :: fs, r')
                          | None => None
                          end
                        else if (c =? "}")%char then Some ([(k, v)], r)
                        else None
                    | EmptyString => None
                    end
                | None => None
                end
              else None
          | EmptyString => None
          end
      | None => None
      end
  end.

(** [JSON.parse(s)]: [None] stands for a [SyntaxError].  On the text of a
    [serializable] value this is the parser of the runtime.  Texts that
    denote no such value are outside the embedding: a number with a
    fraction or an exponent and an escape above one byte have no value
    here and are answered with [None]; an integer beyond [2^53] is kept
    as written where the runtime rounds it, and the members of an object
    keep the order of the text where the runtime moves names that are
    array indices to the front. *)
Definition parse (s : string) : option value :=
  match parse_value (S (String.length s)) s with
  | Some (v, after) =>
      match skip_blanks after with
      | EmptyString => Some v
      | String _ _ => None
      end
  | None => None
  end.

(** What arrives when [v] is sent as JSON: [JSON.parse(JSON.stringify(v))]
    without the text in between. *)
Fixpoint copy (v : value) : value :=
  match v with
  | VArr items =>
      VArr (map (fun x => match x with VUndefined => VNull | _ => copy x end) items)
  | VObj fields =>
      VObj (flat_map (fun kv =>
              match kv with
              | (_, VUndefined) => []
              | (k, x) => [(k, copy x)]
              end) fields)
  | _ => v
  end.

(** The copy of an array element. *)
Definition copy_item (x : value) : value :=
  match x with
  | VUndefined => VNull
  | _ => copy x
  end.

(** Measures and shapes used by the proofs about the codec. *)
Fixpoint size (v : value) : nat :=
  match v with
  | VArr items => S (list_sum (map (fun x => S (size x)) items))
  | VObj fields => S (list_sum (map (fun kv => S (size (snd kv))) fields))
  | _ => 1
  end.

Definition member_text (kv : string * value) : string :=
  quote (fst kv) +:+ ":" +:+ text (snd kv).

(** [s] does not go on with a decimal digit. *)
Definition ends_number (s : string) : Prop :=
  match s with
  | String c _ => digit c = None
  | EmptyString => True
  end.

Definition round_trips (v : value) : Prop :=
  serializable v = true ->
  forall fuel rest, size v <= fuel -> ends_number rest ->
  parse_value fuel (text v +:+ rest) = Some (v, rest).

End JSON.

(** ** Messages

    The wire shape [{ command, data, callback }]: [data] and [callback] may
    be missing. *)
Record Message : Type := {
  command : string;
  data : option (list value);
  callback : option string;
}.

(** The message as the other side receives it.  [postMessage] carries
    JSON-serializable data: the elements of [data] arrive as JSON copies. *)
Definition wire (m : Message) : Message :=
  {| command := command m;
     data := option_map (map JSON.copy_item) (data m);
     callback := callback m |}.

(** ** The webview side: [webview-ui/src/utilities/vscode.ts] *)
Module Webview.

(** The handle [acquireVsCodeApi()] returns. *)
Inductive WebviewApi : Type := HostChannel.

(** The argument of [invoke]: [{ command; default?; args? }].  A missing
    [default] reads as [undefined]. *)
Record Options : Type := {
  o_command : string;
  o_default : value;
  o_args : option (list value);
}.

(** The closure [listener] of one [invoke] call: the token it compares
    with, and the promise its [resolve] settles.  Each call makes its own
    promise, which also tells the closures apart. *)
Record Listener : Type := {
  l_id : string;
  l_promise : nat;
}.

(** The page the script is loaded into. *)
Record Page : Type := {
  has_acquireVsCodeApi : bool;      (* typeof acquireVsCodeApi === 'function' *)
  stored : gmap string string;      (* what localStorage holds at load *)
}.

(** The state the wrapper's methods read and write. *)
Record State : Type := {
  acquire_defined : bool;           (* typeof acquireVsCodeApi === 'function' *)
  acquisitions : nat;               (* calls of acquireVsCodeApi() *)
  vsCodeApi : option WebviewApi;    (* the wrapper's field *)
  listeners : list Listener;        (* window 'message' listeners, oldest first *)
  promises : nat;                   (* promises created so far *)
  settled : gmap nat value;         (* the promises already resolved *)
  outbox : list Message;            (* handed to vsCodeApi.postMessage, newest first *)
  console : list Message;           (* console.log, newest first *)
  localStorage : gmap string string;
}.

(** The page before the module is evaluated: no wrapper yet. *)
Definition load (page : Page) : State :=
  {| acquire_defined := has_acquireVsCodeApi page;
     acquisitions := 0;
     vsCodeApi := None;
     listeners := [];
     promises := 0;
     settled := ∅;
     outbox := [];
     console := [];
     localStorage := stored page |}.

(** A call of the global [acquireVsCodeApi()]. *)
Definition acquireVsCodeApi (w : State) : WebviewApi * State :=
  (HostChannel,
   {| acquire_defined := acquire_defined w; acquisitions := S (acquisitions w);
      vsCodeApi := vsCodeApi w; listeners := listeners w;
      promises := promises w; settled := settled w;
      outbox := outbox w; console := console w;
      localStorage := localStorage w |}).

(** [new VSCodeAPIWrapper()], run once when the module is evaluated:
    [if (typeof acquireVsCodeApi === 'function') this.vsCodeApi = acquireVsCodeApi()]. *)
Definition construct (page : Page) : State :=
  let w := load page in
  if acquire_defined w then
    let (api, w) := acquireVsCodeApi w in
    {| acquire_defined := acquire_defined w; acquisitions := acquisitions w;
       vsCodeApi := Some api; listeners := listeners w;
       promises := promises w; settled := settled w;
       outbox := outbox w; console := console w;
       localStorage := localStorage w |}
  else w.

Definition postMessage (m : Message) (w : State) : State :=
  match vsCodeApi w with
  | Some HostChannel =>
      {| acquire_defined := acquire_defined w; acquisitions := acquisitions w;
         vsCodeApi := vsCodeApi w; listeners := listeners w;
         promises := promises w; settled := settled w;
         outbox := m :: outbox w;
         console := console w; localStorage := localStorage w |}
  | None =>
      {| acquire_defined := acquire_defined w; acquisitions := acquisitions w;
         vsCodeApi := vsCodeApi w; listeners := listeners w;
         promises := promises w; settled := settled w;
         outbox := outbox w;
         console := m :: console w; localStorage := localStorage w |}
  end.

(** [new Promise(...)]: the next promise, not yet settled. *)
Definition new_promise (w : State) : nat * State :=
  (promises w,
   {| acquire_defined := acquire_defined w; acquisitions := acquisitions w;
      vsCodeApi := vsCodeApi w; listeners := listeners w;
      promises := S (promises w); settled := settled w;
      outbox := outbox w; console := console w;
      localStorage := localStorage w |}).

(** [resolve(v)]: only the first call settles the promise. *)
Definition resolve (p : nat) (v : value) (w : State) : State :=
  match settled w !! p with
  | Some _ => w
  | None =>
      {| acquire_defined := acquire_defined w; acquisitions := acquisitions w;
         vsCodeApi := vsCodeApi w; listeners := listeners w;
         promises := promises w; settled := <[p := v]> (settled w);
         outbox := outbox w; console := console w;
         localStorage := localStorage w |}
  end.

Definition set_listeners (ls : list Listener) (w : State) : State :=
  {| acquire_defined := acquire_defined w; acquisitions := acquisitions w;
     vsCodeApi := vsCodeApi w; listeners := ls;
     promises := promises w; settled := settled w;
     outbox := outbox w; console := console w;
     localStorage := localStorage w |}.

Definition addEventListener (l : Listener) (w : State) : State :=
  set_listeners (listeners w ++ [l]) w.

Definition removeEventListener (l : Listener) (w : State) : State :=
  set_listeners
    (filter (fun l' => l_promise l' <> l_promise l) (listeners w)) w.

(** [Date.now() + '_' + Math.random()].  The random number only ever
    appears as text, so a sample is given by its rendering. *)
Definition show_N (n : N) : string := NilEmpty.string_of_uint (N.to_uint n).

Definition make_id (now : N) (random : string) : string :=
  show_N now +:+ "_" +:+ random.

(** The closure [listener] run on a message event. *)
Definition listener (l : Listener) (m : Message) (w : State) : State :=
  if String.eqb (command m) (l_id l) then
    match data m with
    | Some xs => removeEventListener l (resolve (l_promise l) (nth 0 xs VUndefined) w)
    | None => w       (* reading data.data[0] throws before resolve is reached *)
    end
  else w.

(** A message event: every listener attached when it arrives is run. *)
Definition dispatchEvent (m : Message) (w : State) : State :=
  fold_left (fun w' l => listener l m w') (listeners w) w.

(** [invoke(options)], with the clock and random samples it would draw;
    the result is the promise it returns. *)
Definition invoke (o : Options) (now : N) (random : string) (w : State) :
    nat * State :=
  let (p, w) := new_promise w in
  if negb (acquire_defined w) then (p, resolve p (o_default o) w)
  else
    let id := make_id now random in
    let w := addEventListener {| l_id := id; l_promise := p |} w in
    (p, postMessage {| command := o_command o; data := o_args o;
                       callback := Some id |} w).

(** What an [async] method hands back: a result already there, or the
    promise of an [invoke] it awaits. *)
Inductive answer : Type :=
| Now (c : completion)
| Later (p : nat).

Definition getState (key : string) (now : N) (random : string) (w : State) :
    answer * State :=
  match vsCodeApi w with
  | Some HostChannel =>
      let (p, w') := invoke {| o_command := "getState"; o_default := VUndefined;
                               o_args := Some [VStr key] |} now random w in
      (Later p, w')
  | None =>
      match localStorage w !! key with
      | Some (String c s) =>
          match JSON.parse (String c s) with
          | Some v => (Now (Returned v), w)
          | None => (Now (Thrown "SyntaxError"), w)
          end
      | _ => (Now (Returned VUndefined), w)
      end
  end.

Definition setItem (key text : string) (w : State) : State :=
  {| acquire_defined := acquire_defined w; acquisitions := acquisitions w;
     vsCodeApi := vsCodeApi w; listeners := listeners w;
     promises := promises w; settled := settled w;
     outbox := outbox w; console := console w;
     localStorage := <[key := text]> (localStorage w) |}.

Definition setState (key : string) (newState : value) (now : N)
    (random : string) (w : State) : answer * State :=
  match vsCodeApi w with
  | Some HostChannel =>
      let (p, w') := invoke {| o_command := "setState"; o_default := VUndefined;
                               o_args := Some [VStr key; newState] |} now random w in
      (Later p, w')
  | None =>
      (Now (Returned VUndefined),
       setItem key (default "undefined" (JSON.stringify newState)) w)
  end.

(** What can happen to the page after the wrapper is built. *)
Inductive Op : Type :=
| DoPostMessage (m : Message)
| DoInvoke (o : Options) (now : N) (random : string)
| DoGetState (key : string) (now : N) (random : string)
| DoSetState (key : string) (newState : value) (now : N) (random : string)
| Receive (m : Message).

Definition step (w : State) (op : Op) : State :=
  match op with
  | DoPostMessage m => postMessage m w
  | DoInvoke o now random => snd (invoke o now random w)
  | DoGetState key now random => snd (getState key now random w)
  | DoSetState key v now random => snd (setState key v now random w)
  | Receive m => dispatchEvent m w
  end.

Definition run (ops : list Op) (w : State) : State := fold_left step ops w.

(** The clock and random samples the operations carry. *)
Definition samples_of (op : Op) : list (N * string) :=
  match op with
  | DoInvoke _ now random | DoGetState _ now random
  | DoSetState _ _ now random => [(now, random)]
  | _ => []
  end.

Definition samples (ops : list Op) : list (N * string) := flat_map samples_of ops.

Definition pending_ids (w : State) : list string := map l_id (listeners w).

(** The promises of the listeners of [ls] whose token is the command of [m]. *)
Definition fired (m : Message) (ls : list Listener) : list nat :=
  map l_promise (filter (fun l => command m = l_id l) ls).

(** [w'] differs from [w] in its listeners and settled promises at most. *)
Definition same_page (w w' : State) : Prop :=
  acquire_defined w' = acquire_defined w /\ acquisitions w' = acquisitions w /\
  vsCodeApi w' = vsCodeApi w /\ promises w' = promises w /\
  outbox w' = outbox w /\ console w' = console w /\
  localStorage w' = localStorage w.

(** What every state the wrapper can be in satisfies. *)
Record consistent (w : State) : Prop := {
  memo_field : vsCodeApi w = if acquire_defined w then Some HostChannel else None;
  memo_once : acquisitions w = if acquire_defined w then 1 else 0;
  own_promise : NoDup (map l_promise (listeners w));
  attached_pending :
    Forall (fun l => l_promise l < promises w /\ settled w !! l_promise l = None)
           (listeners w);
  settled_known : forall p v, settled w !! p = Some v -> p < promises w;
}.

End Webview.

(** ** The extension side: [src/panels/CreateProjectPanel.ts] *)
Module Panel.

(** How the user answers [window.showOpenDialog]: the dialog is dismissed,
    or a folder is picked; [Picked] carries
    [Uri.parse(res[0].path).fsPath]. *)
Inductive DialogAnswer : Type :=
| Dismissed
| Picked (fsPath : string).

(** The editor window as the handlers use it. *)
Record Host : Type := {
  notifications : list value;       (* window.showInformationMessage, newest first *)
  dialogs : list DialogAnswer;      (* the answers the user is going to give *)
}.

(** A handler of the map: [(...args: any[]) => any], awaited by the
    listener. *)
Definition Handler : Type := list value -> Host -> completion * Host.

(** The [i]-th positional argument. *)
Definition arg (i : nat) (args : list value) : value := nth i args VUndefined.

Definition showInformationMessage (text : value) (h : Host) : Host :=
  {| notifications := text :: notifications h; dialogs := dialogs h |}.

(** [map.set('hello', (text) => { window.showInformationMessage(text) })] *)
Definition hello : Handler :=
  fun args h => (Returned VUndefined, showInformationMessage (arg 0 args) h).

(** [map.set('selectPath', async (text) => ...)]: with no answer left the
    dialog stays open and the handler never returns. *)
Definition selectPath : Handler :=
  fun args h =>
    let h := showInformationMessage (arg 0 args) h in
    match dialogs h with
    | [] => (Unsettled, h)
    | Dismissed :: later =>
        (Returned VNull, {| notifications := notifications h; dialogs := later |})
    | Picked fsPath :: later =>
        (Returned (VStr fsPath),
         {| notifications := notifications h; dialogs := later |})
    end.

(** The map of [_setWebviewMessageListener], in the order of its
    [map.set] calls.  The body of [createProject] only drives the host
    (file system, terminal, folder opening, and at its end the disposal of
    the panel) and is left as it comes; the life cycle of the panel is the
    host's and is not part of the state below. *)
Definition handlers (createProject : Handler) : gmap string Handler :=
  <["createProject" := createProject]>
    (<["selectPath" := selectPath]> (<["hello" := hello]> ∅)).

(** The panel: the host, the handler calls made so far (a record kept for
    the statements) and the messages given to
    [this._panel.webview.postMessage], both newest first. *)
Record State : Type := {
  host : Host;
  invoked : list (string * list value);
  posted : list Message;
}.

(** [if (callback)]: a missing or empty token is falsy. *)
Definition truthy (token : option string) : bool :=
  match token with
  | Some (String _ _) => true
  | _ => false
  end.

Definition not_found (name : string) : string := "找不到命令 " +:+ name.

(** The listener given to [webview.onDidReceiveMessage]. *)
Definition onDidReceiveMessage (map : gmap string Handler) (message : Message)
    (s : State) : completion * State :=
  let args := default [] (data message) in
  match (map !! command message : option Handler) with
  | None => (Thrown (not_found (command message)), s)
  | Some handler =>
      let (outcome, h) := handler args (host s) in
      let s := {| host := h;
                  invoked := (command message, args) :: invoked s;
                  posted := posted s |} in
      match outcome with
      | Returned res =>
          if truthy (callback message) then
            (Returned VUndefined,
             {| host := host s; invoked := invoked s;
                posted := {| command := default "" (callback message);
                             data := Some [res];
                             callback := None |} :: posted s |})
          else (Returned VUndefined, s)
      | Thrown e => (Thrown e, s)
      | Unsettled => (Unsettled, s)
      end
  end.

End Panel.

(** ** Sample pages, panels and calls the statements are run on *)
Module Examples.

(** A page inside the editor, and one in a plain browser. *)
Definition vscode_page : Webview.Page :=
  {| Webview.has_acquireVsCodeApi := true; Webview.stored := ∅ |}.

Definition browser_page : Webview.Page :=
  {| Webview.has_acquireVsCodeApi := false; Webview.stored := ∅ |}.

(** A [createProject] whose terminal is never closed. *)
Definition createProject_waiting : Panel.Handler := fun _ h => (Unsettled, h).

Definition registry : gmap string Panel.Handler :=
  Panel.handlers createProject_waiting.

(** A panel that has not received anything, with the answers the user is
    going to give to the folder dialog. *)
Definition panel (answers : list Panel.DialogAnswer) : Panel.State :=
  {| Panel.host := {| Panel.notifications := []; Panel.dialogs := answers |};
     Panel.invoked := [];
     Panel.posted := [] |}.

Definition select_path : Webview.Options :=
  {| Webview.o_command := "selectPath";
     Webview.o_default := VStr "nowhere";
     Webview.o_args := Some [VStr "Location"] |}.

Definition say_hello : Webview.Options :=
  {| Webview.o_command := "hello";
     Webview.o_default := VUndefined;
     Webview.o_args := Some [VStr "world"] |}.

End Examples.

(** ** What a sequence of operations contains *)
Module Trace.
Import Webview.

(** The responses among [ops] that bear the token [id]. *)
Definition answers_to (id : string) (op : Op) : Prop :=
  match op with
  | Receive m => command m = id
  | _ => False
  end.

(** The messages given to [postMessage] by [ops], oldest first. *)
Definition posted_by (ops : list Op) : list Message :=
  flat_map (fun op => match op with DoPostMessage m => [m] | _ => [] end) ops.

(** The keys [ops] write with [setState]. *)
Definition written_by (ops : list Op) : list string :=
  flat_map (fun op => match op with DoSetState key _ _ _ => [key] | _ => [] end) ops.

End Trace.

(** ** The panel class: construction, [render] and [dispose] of
    [CreateProjectPanel] *)
Module Extension.

(** The two events an instance subscribes to. *)
Inductive Event : Type := DidDispose | DidReceiveMessage.

(** A subscription, the disposable that [onDidDispose] and
    [onDidReceiveMessage] return and push onto the array they are given. *)
Record Disposable : Type := {
  event : Event;
  of_panel : nat;
}.

Global Instance Event_eq_dec : EqDecision Event.
Proof. solve_decision. Defined.

Global Instance Disposable_eq_dec : EqDecision Disposable.
Proof. solve_decision. Defined.

(** The extension host as the class uses it.  Panels are numbered in the
    order [window.createWebviewPanel] makes them; an instance is named by
    the number of its panel. *)
Record State : Type := {
  currentPanel : option nat;                 (* CreateProjectPanel.currentPanel *)
  _disposables : gmap nat (list Disposable); (* the array of each instance *)
  created : nat;                             (* panels made so far *)
  html : gmap nat string;                    (* panel.webview.html *)
  revealed : list nat;                       (* panel.reveal(...), newest first *)
  closed : list nat;                         (* panels disposed, newest first *)
  released : list Disposable;                (* disposable.dispose(), newest first *)
  mail : list (nat * Message);               (* panel.webview.postMessage, newest first *)
}.

(** The host when the extension is activated. *)
Definition start : State :=
  {| currentPanel := None; _disposables := ∅; created := 0; html := ∅;
     revealed := []; closed := []; released := []; mail := [] |}.

Definition set_currentPanel (c : option nat) (s : State) : State :=
  {| currentPanel := c; _disposables := _disposables s; created := created s;
     html := html s; revealed := revealed s; closed := closed s;
     released := released s; mail := mail s |}.

Definition set_disposables (p : nat) (ds : list Disposable) (s : State) : State :=
  {| currentPanel := currentPanel s; _disposables := <[p := ds]> (_disposables s);
     created := created s; html := html s; revealed := revealed s;
     closed := closed s; released := released s; mail := mail s |}.

(** [window.createWebviewPanel(...)]: the next panel. *)
Definition createWebviewPanel (s : State) : nat * State :=
  (created s,
   {| currentPanel := currentPanel s; _disposables := _disposables s;
      created := S (created s); html := html s; revealed := revealed s;
      closed := closed s; released := released s; mail := mail s |}).

Definition set_html (p : nat) (page : string) (s : State) : State :=
  {| currentPanel := currentPanel s; _disposables := _disposables s;
     created := created s; html := <[p := page]> (html s); revealed := revealed s;
     closed := closed s; released := released s; mail := mail s |}.

Definition reveal (p : nat) (s : State) : State :=
  {| currentPanel := currentPanel s; _disposables := _disposables s;
     created := created s; html := html s; revealed := p :: revealed s;
     closed := closed s; released := released s; mail := mail s |}.

Definition set_closed (p : nat) (s : State) : State :=
  {| currentPanel := currentPanel s; _disposables := _disposables s;
     created := created s; html := html s; revealed := revealed s;
     closed := p :: closed s; released := released s; mail := mail s |}.

(** [disposable.dispose()] *)
Definition release (s : State) (d : Disposable) : State :=
  {| currentPanel := currentPanel s; _disposables := _disposables s;
     created := created s; html := html s; revealed := revealed s;
     closed := closed s; released := d :: released s; mail := mail s |}.

Definition postMessage (p : nat) (m : Message) (s : State) : State :=
  {| currentPanel := currentPanel s; _disposables := _disposables s;
     created := created s; html := html s; revealed := revealed s;
     closed := closed s; released := released s; mail := (p, m) :: mail s |}.

(** An event subscribed to with an array: the subscription is pushed onto
    the array of the instance. *)
Definition subscribe (e : Event) (p : nat) (s : State) : State :=
  set_disposables p
    (default [] (_disposables s !! p) ++ [{| event := e; of_panel := p |}]) s.

Definition newline : string := String "010" "".
Definition quoted (s : string) : string :=
  String JSON.dquote (s +:+ String JSON.dquote "").

(** [_getWebviewContent]: the template with the two URIs filled in. *)
Definition _getWebviewContent (stylesUri scriptUri : string) : string :=
  newline
  +:+ "      <!DOCTYPE html>" +:+ newline
  +:+ "      <html lang=" +:+ quoted "en" +:+ ">" +:+ newline
  +:+ "        <head>" +:+ newline
  +:+ "          <meta charset=" +:+ quoted "UTF-8" +:+ " />" +:+ newline
  +:+ "          <meta name=" +:+ quoted "viewport" +:+ " content="
        +:+ quoted "width=device-width, initial-scale=1.0" +:+ " />" +:+ newline
  +:+ "          <link rel=" +:+ quoted "stylesheet" +:+ " type=" +:+ quoted "text/css"
        +:+ " href=" +:+ quoted stylesUri +:+ ">" +:+ newline
  +:+ "          <title>Hello World</title>" +:+ newline
  +:+ "        </head>" +:+ newline
  +:+ "        <body>" +:+ newline
  +:+ "          <div id=" +:+ quoted "root" +:+ "></div>" +:+ newline
  +:+ "          <script type=" +:+ quoted "module" +:+ " src=" +:+ quoted scriptUri
        +:+ "></script>" +:+ newline
  +:+ "        </body>" +:+ newline
  +:+ "      </html>" +:+ newline
  +:+ "    ".

(** [dispose] run with a receiver that is not the instance.  The
    constructor registers [this.dispose] unbound, with [null] for the
    receiver: the static field is cleared, then [this._panel.dispose()]
    throws.  The host reports what a listener throws and carries on. *)
Definition dispose_unbound (s : State) : completion * State :=
  (Thrown "TypeError", set_currentPanel None s).

(** The panel [p] is disposed, by the user who closes it or by
    [panel.dispose()]: once, and [onDidDispose] fires for the listener of
    the instance unless its subscription was disposed before. *)
Definition close (p : nat) (s : State) : State :=
  if bool_decide (p ∈ closed s) then s
  else
    let s := set_closed p s in
    if bool_decide ({| event := DidDispose; of_panel := p |} ∈ released s) then s
    else snd (dispose_unbound s).

(** [new CreateProjectPanel(panel, extensionUri)]; [getUri] stands for the
    function of that name, which is not part of these sources, applied to
    the webview of the panel and the extension URI. *)
Definition construct (getUri : nat -> list string -> string) (p : nat) (s : State) : State :=
  let s := set_disposables p [] s in
  let s := subscribe DidDispose p s in
  let s := set_html p (_getWebviewContent
                         (getUri p ["webview-ui"; "build"; "assets"; "index.css"])
                         (getUri p ["webview-ui"; "build"; "assets"; "index.js"])) s in
  subscribe DidReceiveMessage p s.

Definition greeting : Message :=
  {| command := "hello"; data := Some [VStr "world"]; callback := None |}.

(** [CreateProjectPanel.render(extensionUri)] *)
Definition render (getUri : nat -> list string -> string) (s : State) : State :=
  match currentPanel s with
  | Some p => reveal p s
  | None =>
      let (p, s) := createWebviewPanel s in
      let s := set_currentPanel (Some p) (construct getUri p s) in
      postMessage p greeting s
  end.

(** [dispose()] called on the instance of panel [p]: the loop pops the
    array from its end until it is empty and disposes what it pops. *)
Definition dispose (p : nat) (s : State) : State :=
  let s := set_currentPanel None s in
  let s := close p s in
  let stack := rev (default [] (_disposables s !! p)) in
  fold_left release stack (set_disposables p [] s).

(** What happens to the class after activation. *)
Inductive Op : Type :=
| Render                (* the command of the extension runs [render] *)
| UserCloses            (* the user closes the panel that is open *)
| Dispose.              (* [currentPanel.dispose()] *)

Definition step (getUri : nat -> list string -> string) (s : State) (op : Op) : State :=
  match op, currentPanel s with
  | Render, _ => render getUri s
  | UserCloses, Some p => close p s
  | Dispose, Some p => dispose p s
  | _, None => s
  end.

Definition run (getUri : nat -> list string -> string) (ops : list Op) (s : State) : State :=
  fold_left (step getUri) ops s.

(** The subscriptions a new instance holds, in the order they were made. *)
Definition subscriptions (p : nat) : list Disposable :=
  [{| event := DidDispose; of_panel := p |};
   {| event := DidReceiveMessage; of_panel := p |}].

(** What holds of the host after any sequence of operations. *)
Record tidy (s : State) : Prop := {
  current_open :
    forall p, currentPanel s = Some p ->
      p < created s /\ (p ∉ closed s)
      /\ ({| event := DidDispose; of_panel := p |} ∉ released s)
      /\ _disposables s !! p = Some (subscriptions p);
  others_closed :
    forall p, p < created s -> currentPanel s <> Some p -> p ∈ closed s;
  closed_made : forall p, p ∈ closed s -> p < created s;
  released_closed : forall d, d ∈ released s -> of_panel d ∈ closed s;
  greeted : mail s = map (fun p => (p, greeting)) (rev (seq 0 (created s)));
}.

End Extension.

(** ** The [createProject] handler of [src/panels/CreateProjectPanel.ts] *)
Module Project.

(** What a path names on disk; a directory is known by its entries. *)
Inductive Node : Type :=
| File
| Directory (entries : list string).

(** The buttons of the prompt. *)
Inductive Button : Type := Yes | No.

(** The options given to [window.createTerminal]. *)
Record Terminal : Type := {
  name : string;
  cwd : string;
  shellPath : string;
  shellArgs : value;
}.

(** The machine of the extension host, as the handler meets it: the file
    system by resolved path, what the user is going to answer to the
    prompts ([None]: the prompt is dismissed), the names of the terminals
    that are going to be closed, in order, and what the handler has done
    to the editor, newest first. *)
Record World : Type := {
  files : gmap string Node;
  answers : list (option Button);
  closing : list string;
  prompts : list (string * list string);
  terminals : list Terminal;
  shown : list nat;
  console : list string;
  opened : list (string * bool);
  panel_open : bool;
}.

(** What the handler takes from modules that are not part of the
    repository's sources: Node's [path] (with [path.sep], the separator of
    the platform), the helper [shellArgs], and the iteration of a
    string. *)
Record Runtime : Type := {
  path_resolve : string -> string;
  path_dirname : string -> string;
  path_basename : string -> string;
  path_sep : ascii;
  shell_args : list value -> value;
  code_points : string -> list string;
}.

(** An asynchronous computation over the world: it ends with a value,
    rejects, or stays pending. *)
Inductive outcome (A : Type) : Type :=
| Done (a : A)
| Failed (message : string)
| Pending.
Arguments Done {A} a.
Arguments Failed {A} message.
Arguments Pending {A}.

Definition Async (A : Type) : Type := World -> outcome A * World.

Definition ret {A} (a : A) : Async A := fun w => (Done a, w).
Definition throw {A} (message : string) : Async A := fun w => (Failed message, w).

Definition bind {A B} (m : Async A) (k : A -> Async B) : Async B :=
  fun w =>
    match m w with
    | (Done a, w) => k a w
    | (Failed message, w) => (Failed message, w)
    | (Pending, w) => (Pending, w)
    end.

Notation "'do' x <- m ; k" := (bind m (fun x => k))
  (at level 10, x name, m at level 100, k at level 200).

(** [v.key] for the keys the handler reads, none of which is a property
    of a string, an array, a number or a boolean: reading from [undefined]
    or [null] throws, an object gives the value defined last. *)
Definition field (key : string) (v : value) : option value :=
  match v with
  | VUndefined | VNull => None
  | VObj fields =>
      Some (default VUndefined
              (snd <$> find (fun kv => String.eqb key (fst kv)) (rev fields)))
  | _ => Some VUndefined
  end.

(** [v === s] for a string [s]. *)
Definition is_string (s : string) (v : value) : bool :=
  match v with
  | VStr t => String.eqb t s
  | _ => false
  end.

(** [...v] inside an array literal. *)
Definition spread (rt : Runtime) (v : value) : option (list value) :=
  match v with
  | VArr items => Some items
  | VStr s => Some (map VStr (code_points rt s))
  | _ => None
  end.

(** [fs-extra]'s [pathExists] and [readdir]. *)
Definition pathExists (p : string) : Async bool :=
  fun w => (Done (bool_decide (is_Some (files w !! p))), w).

Definition readdir (p : string) : Async (list string) :=
  fun w =>
    match files w !! p with
    | Some (Directory entries) => (Done entries, w)
    | Some File => (Failed "ENOTDIR", w)
    | None => (Failed "ENOENT", w)
    end.

(** The path [s] ends with the character [c]. *)
Fixpoint ends_with (c : ascii) (s : string) : bool :=
  match s with
  | EmptyString => false
  | String a EmptyString => Ascii.eqb a c
  | String _ rest => ends_with c rest
  end.

(** The resolved path [p] lies under the directory [d]: it continues the
    path of [d] past a separator (a root ends with its separator). *)
Definition under (rt : Runtime) (d p : string) : bool :=
  String.prefix
    (if ends_with (path_sep rt) d then d else d +:+ String (path_sep rt) "") p.

(** What [remove(d)] takes away: [d] itself and all that lies under it. *)
Definition removed (rt : Runtime) (d p : string) : bool :=
  String.eqb p d || under rt d p.

(** [fs-extra]'s [remove]: the file, or the directory with its contents. *)
Definition remove (rt : Runtime) (d : string) : Async unit :=
  fun w =>
    (Done tt,
     {| files := filter (fun entry => removed rt d (fst entry) = false) (files w);
        answers := answers w; closing := closing w;
        prompts := prompts w; terminals := terminals w; shown := shown w;
        console := console w; opened := opened w; panel_open := panel_open w |}).

(** [window.showInformationMessage(text, ...items)]: the button that was
    pressed, or nothing. *)
Definition showInformationMessage (text : string) (items : list string) :
    Async (option Button) :=
  fun w =>
    let asked := (text, items) :: prompts w in
    match answers w with
    | [] =>
        (Pending,
         {| files := files w; answers := []; closing := closing w;
            prompts := asked; terminals := terminals w; shown := shown w;
            console := console w; opened := opened w; panel_open := panel_open w |})
    | a :: later =>
        (Done a,
         {| files := files w; answers := later; closing := closing w;
            prompts := asked; terminals := terminals w; shown := shown w;
            console := console w; opened := opened w; panel_open := panel_open w |})
    end.

(** [window.createTerminal(options)]: the terminal, by its number. *)
Definition createTerminal (t : Terminal) : Async nat :=
  fun w =>
    (Done (length (terminals w)),
     {| files := files w; answers := answers w; closing := closing w;
        prompts := prompts w; terminals := t :: terminals w; shown := shown w;
        console := console w; opened := opened w; panel_open := panel_open w |}).

Definition show (terminal : nat) : Async unit :=
  fun w =>
    (Done tt,
     {| files := files w; answers := answers w; closing := closing w;
        prompts := prompts w; terminals := terminals w;
        shown := terminal :: shown w;
        console := console w; opened := opened w; panel_open := panel_open w |}).

(** What is left of the closings once a terminal called [wanted] has been
    closed. *)
Fixpoint after_closing (wanted : string) (names : list string) : option (list string) :=
  match names with
  | [] => None
  | n :: later => if String.eqb n wanted then Some later else after_closing wanted later
  end.

(** The promise resolved by the [onDidCloseTerminal] listener. *)
Definition terminalClosed (wanted : string) : Async unit :=
  fun w =>
    match after_closing wanted (closing w) with
    | Some later =>
        (Done tt,
         {| files := files w; answers := answers w; closing := later;
            prompts := prompts w; terminals := terminals w; shown := shown w;
            console := console w; opened := opened w; panel_open := panel_open w |})
    | None =>
        (Pending,
         {| files := files w; answers := answers w; closing := [];
            prompts := prompts w; terminals := terminals w; shown := shown w;
            console := console w; opened := opened w; panel_open := panel_open w |})
    end.

Definition log (text : string) : Async unit :=
  fun w =>
    (Done tt,
     {| files := files w; answers := answers w; closing := closing w;
        prompts := prompts w; terminals := terminals w; shown := shown w;
        console := text :: console w; opened := opened w;
        panel_open := panel_open w |}).

(** [commands.executeCommand('vscode.openFolder', Uri.file(p), newWindow)] *)
Definition openFolder (p : string) (newWindow : bool) : Async unit :=
  fun w =>
    (Done tt,
     {| files := files w; answers := answers w; closing := closing w;
        prompts := prompts w; terminals := terminals w; shown := shown w;
        console := console w; opened := (p, newWindow) :: opened w;
        panel_open := panel_open w |}).

(** [this._panel.dispose()] *)
Definition disposePanel : Async unit :=
  fun w =>
    (Done tt,
     {| files := files w; answers := answers w; closing := closing w;
        prompts := prompts w; terminals := terminals w; shown := shown w;
        console := console w; opened := opened w; panel_open := false |}).

(** [path.resolve(x)] throws unless [x] is a string. *)
Definition resolve_location (rt : Runtime) (data : value) : Async string :=
  match field "location" data with
  | Some (VStr l) => ret (path_resolve rt l)
  | _ => throw "TypeError"
  end.

(** The condition of the [if]: [&&] evaluates [readdir] only when the
    path exists. *)
Definition occupied (location : string) : Async bool :=
  do found <- pathExists location;
  if found : bool then
    do entries <- readdir location;
    ret (negb (Nat.eqb (length entries) 0))
  else ret false.

(** The array literal given to [shellArgs]. *)
Definition arguments (rt : Runtime) (data : value) (location : string) :
    Async (list value) :=
  match spread rt (default VUndefined (field "flags" data)) with
  | Some flags =>
      ret ([VStr "create";
            default VUndefined (field "command" data);
            VStr (path_basename rt location);
            VObj [("--", VBool (negb (is_string "yarn"
                     (default VUndefined (field "packageManager" data)))))]]
           ++ flags)
  | None => throw "TypeError"
  end.

(** What follows the [if] statement. *)
Definition scaffold (rt : Runtime) (data : value) (location : string) : Async value :=
  do args <- arguments rt data location;
  do terminal <- createTerminal
    {| name := "Create Project";
       cwd := path_dirname rt location;
       shellPath := "C:/Users/rxliuli/AppData/Local/pnpm/pnpm.CMD";
       shellArgs := shell_args rt args |};
  do _ <- show terminal;
  do _ <- terminalClosed "Create Project";
  do _ <- log "执行完了";
  do _ <- openFolder location true;
  do _ <- disposePanel;
  ret VUndefined.

(** [map.set('createProject', async (data) => ...)] *)
Definition createProject (rt : Runtime) (args : list value) : Async value :=
  let data := Panel.arg 0 args in
  do location <- resolve_location rt data;
  do full <- occupied location;
  if full : bool then
    do answer <- showInformationMessage "Project already exists" ["Yes"; "No"];
    match answer with
    | None => ret VUndefined
    | Some _ => do _ <- remove rt location; scaffold rt data location
    end
  else scaffold rt data location.

(** How the listener of the panel sees the end of the handler. *)
Definition settle (r : outcome value) : completion :=
  match r with
  | Done v => Returned v
  | Failed message => Thrown message
  | Pending => Unsettled
  end.

(** The handler as the map of the panel holds it, for one call on the
    machine [w]: the prompts it shows are notifications of the window. *)
Definition handler (rt : Runtime) (w : World) : Panel.Handler :=
  fun args h =>
    let (r, w') := createProject rt args w in
    let asked := firstn (length (prompts w') - length (prompts w)) (prompts w') in
    (settle r,
     {| Panel.notifications := map (fun p => VStr (fst p)) asked ++ Panel.notifications h;
        Panel.dialogs := Panel.dialogs h |}).

(** The world with other answers to come. *)
Definition answering (a : list (option Button)) (w : World) : World :=
  {| files := files w; answers := a; closing := closing w;
     prompts := prompts w; terminals := terminals w; shown := shown w;
     console := console w; opened := opened w; panel_open := panel_open w |}.

End Project.

(** ** Sample requests and machines for the handler *)
Module Scenes.
Import Project.

(** A runtime whose paths are already resolved. *)
Definition runtime : Runtime :=
  {| path_resolve := fun l => l;
     path_dirname := fun _ => "/work";
     path_basename := fun _ => "app";
     path_sep := "/";
     shell_args := VArr;
     code_points := fun _ => [] |}.

(** A request for a project at [/work/app]. *)
Definition request (flags : value) : list value :=
  [VObj [("packageManager", VStr "pnpm"); ("command", VStr "vite");
         ("location", VStr "/work/app"); ("flags", flags)]].

(** A machine on which nothing has been done yet. *)
Definition desk (disk : gmap string Node) (a : list (option Button))
    (c : list string) : World :=
  {| files := disk; answers := a; closing := c; prompts := []; terminals := [];
     shown := []; console := []; opened := []; panel_open := true |}.

(** A disk that holds a project at the location already, next to a file
    whose name begins like it. *)
Definition taken : gmap string Node :=
  <[ "/work/app/package.json" := File ]>
    (<[ "/work/apple" := File ]> {[ "/work/app" := Directory ["package.json"] ]}).

End Scenes.

(** * Properties *)

(** ** The JSON codec reads back what it writes *)
Section JsonFacts.
Import JSON.

Lemma value_ind (P : value -> Prop) :
  P VUndefined -> P VNull -> (forall b, P (VBool b)) -> (forall n, P (VNum n)) ->
  (forall s, P (VStr s)) ->
  (forall items, Forall P items -> P (VArr items)) ->
  (forall fields, Forall (fun kv => P (snd kv)) fields -> P (VObj fields)) ->
  forall v, P v.
Proof.
  intros Hu Hn Hb Hz Hs Ha Ho.
  fix IH 1. intros [| |b|n|s|items|fields].
  - exact Hu.
  - exact Hn.
  - apply Hb.
  - apply Hz.
  - apply Hs.
  - apply Ha. induction items as [|x xs IHxs]; constructor; [apply IH | exact IHxs].
  - apply Ho. induction fields as [|[k x] fs IHfs]; constructor; [apply IH | exact IHfs].
Qed.

Lemma sapp_cons c (a b : string) : String c a +:+ b = String c (a +:+ b).
Proof. reflexivity. Qed.

Lemma sapp_nil (b : string) : "" +:+ b = b.
Proof. reflexivity. Qed.

Lemma sapp_assoc (a b c : string) : (a +:+ b) +:+ c = a +:+ (b +:+ c).
Proof.
  induction a as [|x a IH]; [reflexivity|]. rewrite !sapp_cons. now rewrite IH.
Qed.

Lemma sapp_length (a b : string) :
  String.length (a +:+ b) = String.length a + String.length b.
Proof.
  induction a as [|x a IH]; [reflexivity|]. rewrite sapp_cons. simpl. now rewrite IH.
Qed.

Lemma parse_digits_string_of_uint d rest :
  ends_number rest ->
  parse_digits (NilEmpty.string_of_uint d +:+ rest) = (d, rest).
Proof.
  intros Hrest.
  induction d; cbn [NilEmpty.string_of_uint]; rewrite ?sapp_cons, ?sapp_nil;
    try (cbn [parse_digits digit]; rewrite IHd; reflexivity).
  destruct rest as [|c r]; simpl in *; [reflexivity | now rewrite Hrest].
Qed.

Lemma to_int_norm n : norm (Z.to_int n) = Z.to_int n.
Proof. now rewrite <- DecimalZ.to_of, DecimalZ.of_to. Qed.

Lemma number_of_normal neg d r :
  d <> Nil -> unorm d = d ->
  number_of neg d r = Some (Z.of_int (if neg then Neg d else Pos d), r).
Proof.
  intros Hnn Hd. unfold number_of.
  destruct (uint_eq_dec (unorm d) d) as [_|Hne]; [|contradiction].
  destruct d; [contradiction | reflexivity..].
Qed.

Lemma parse_number_show_Z n rest :
  ends_number rest -> parse_number (show_Z n +:+ rest) = Some (n, rest).
Proof.
  intros Hrest. unfold show_Z.
  pose proof (to_int_norm n) as Hnorm. pose proof (DecimalZ.of_to n) as Hof.
  destruct (Z.to_int n) as [d|d] eqn:E.
  - assert (Hd : unorm d = d) by (simpl in Hnorm; congruence).
    assert (Hnn : d <> Nil) by (rewrite <- Hd; apply DecimalFacts.unorm_nonnil).
    pose proof (parse_digits_string_of_uint d rest Hrest) as Hp.
    pose proof (number_of_normal false d rest Hnn Hd) as Hno.
    unfold parse_number.
    destruct d; [contradiction | ..]; cbn [NilZero.string_of_int NilZero.string_of_uint];
      cbn [NilEmpty.string_of_uint] in *; rewrite ?sapp_cons in *;
      cbn [Ascii.eqb Bool.eqb]; rewrite Hp, Hno, Hof; reflexivity.
  - assert (Hnn : d <> Nil).
    { intros ->. simpl in Hnorm. discriminate. }
    assert (Hd : unorm d = d).
    { simpl in Hnorm. unfold unorm. destruct (nzhead d); congruence. }
    pose proof (parse_digits_string_of_uint d rest Hrest) as Hp.
    pose proof (number_of_normal true d rest Hnn Hd) as Hno.
    unfold parse_number.
    destruct d; [contradiction | ..]; cbn [NilZero.string_of_int NilZero.string_of_uint];
      cbn [NilEmpty.string_of_uint] in *; rewrite ?sapp_cons in *;
      cbn [Ascii.eqb Bool.eqb]; rewrite Hp, Hno, Hof; reflexivity.
Qed.

Lemma parse_body_quote_char c s :
  parse_body (quote_char c +:+ s) = cons_char c (parse_body s).
Proof.
  destruct c as [[] [] [] [] [] [] [] []]; reflexivity.
Qed.

Lemma parse_body_quote_body s rest :
  parse_body (quote_body s +:+ String dquote rest) = Some (s, rest).
Proof.
  induction s as [|c s IH]; [reflexivity|].
  cbn [quote_body]. rewrite sapp_assoc, parse_body_quote_char, IH. reflexivity.
Qed.

Lemma parse_string_quote s rest : parse_string (quote s +:+ rest) = Some (s, rest).
Proof.
  unfold quote. rewrite sapp_cons. cbn [parse_string]. rewrite Ascii.eqb_refl.
  rewrite sapp_assoc, sapp_cons, sapp_nil. apply parse_body_quote_body.
Qed.

Lemma sapp_nil_r (a : string) : a +:+ "" = a.
Proof. induction a as [|x a IH]; [reflexivity|]. now rewrite sapp_cons, IH. Qed.

Lemma show_Z_head n :
  exists c r, show_Z n = String c r /\ (digit c <> None \/ c = "-"%char).
Proof.
  unfold show_Z. destruct (Z.to_int n) as [d|d]; destruct d;
    cbn [NilZero.string_of_int NilZero.string_of_uint NilEmpty.string_of_uint];
    eexists _, _; (split; [reflexivity|]); cbn; auto.
Qed.

Lemma number_head c :
  digit c <> None \/ c = "-"%char ->
  (c =? "n")%char = false /\ (c =? "t")%char = false /\ (c =? "f")%char = false /\
  (c =? dquote)%char = false /\ (c =? "[")%char = false /\ (c =? "{")%char = false /\
  (c =? "]")%char = false /\ blank c = false.
Proof.
  intros [H| ->]; [|repeat split; reflexivity].
  destruct c as [[] [] [] [] [] [] [] []]; cbn in H; try congruence;
    repeat split; reflexivity.
Qed.

Lemma skip_blanks_head c r : blank c = false -> skip_blanks (String c r) = String c r.
Proof. intros H. cbn [skip_blanks]. now rewrite H. Qed.

(** The text of a value starts with a character that is neither white
    space nor a closing bracket. *)
Lemma text_head v :
  exists c r, text v = String c r /\ blank c = false /\ (c =? "]")%char = false.
Proof.
  destruct v as [| |[]|n|s|items|fields]; try (eexists _, _; repeat split; reflexivity).
  destruct (show_Z_head n) as (c & r & Hs & Hc). exists c, r.
  apply number_head in Hc. cbn [text]. tauto.
Qed.

Lemma skip_blanks_text v rest : skip_blanks (text v +:+ rest) = text v +:+ rest.
Proof.
  destruct (text_head v) as (c & r & -> & Hc & _). rewrite sapp_cons.
  now apply skip_blanks_head.
Qed.

Lemma strip_bracket_text v rest : strip "]" (text v +:+ rest) = None.
Proof.
  destruct (text_head v) as (c & r & -> & _ & Hc). rewrite sapp_cons.
  cbn [strip]. now rewrite eqb_sym, Hc.
Qed.

Lemma parse_elements_join items :
  Forall round_trips items -> forallb serializable items = true -> items <> [] ->
  forall fuel rest, list_sum (map (fun x => S (size x)) items) <= fuel ->
  parse_elements fuel (join (map text items) +:+ String "]" rest) = Some (items, rest).
Proof.
  induction 1 as [|v vs Hv Hvs IH]; [congruence|].
  intros Hser _ fuel rest Hfuel. cbn [forallb] in Hser.
  apply andb_prop in Hser as [Hsv Hsvs]. simpl in Hfuel.
  destruct fuel as [|fuel]; [lia|]. cbn [parse_elements].
  destruct vs as [|w ws].
  - cbn [map join]. rewrite (Hv Hsv fuel); [reflexivity | lia | reflexivity].
  - change (join (map text (v :: w :: ws)))
      with (text v +:+ "," +:+ join (map text (w :: ws))).
    rewrite !sapp_assoc, sapp_cons, sapp_nil.
    rewrite (Hv Hsv fuel); [| lia | reflexivity].
    rewrite skip_blanks_head by reflexivity.
    cbn [Ascii.eqb Bool.eqb]. rewrite IH; [reflexivity | assumption | congruence | lia].
Qed.

Lemma members_serializable fields :
  forallb (fun kv => serializable (snd kv)) fields = true ->
  flat_map (fun kv => match kv with
                      | (_, VUndefined) => []
                      | (k, x) => [quote k +:+ ":" +:+ text x]
                      end) fields = map member_text fields.
Proof.
  induction fields as [|[k x] fs IH]; [reflexivity|]. cbn [forallb snd].
  intros [Hx Hfs]%andb_prop. cbn [flat_map map]. rewrite IH by assumption.
  destruct x; [discriminate | reflexivity..].
Qed.

Lemma skip_blanks_quote s rest : skip_blanks (quote s +:+ rest) = quote s +:+ rest.
Proof. reflexivity. Qed.

Lemma parse_members_join fields :
  Forall (fun kv => round_trips (snd kv)) fields ->
  forallb (fun kv => serializable (snd kv)) fields = true -> fields <> [] ->
  forall fuel rest, list_sum (map (fun kv => S (size (snd kv))) fields) <= fuel ->
  parse_members fuel (join (map member_text fields) +:+ String "}" rest)
  = Some (fields, rest).
Proof.
  induction 1 as [|[k v] fs Hv Hfs IH]; [congruence|].
  intros Hser _ fuel rest Hfuel. cbn [forallb snd] in Hser, Hv.
  apply andb_prop in Hser as [Hsv Hsfs]. simpl in Hfuel.
  destruct fuel as [|fuel]; [lia|]. cbn [parse_members].
  destruct fs as [|w ws].
  - cbn [map join]. unfold member_text at 1. cbn [fst snd].
    rewrite !sapp_assoc, skip_blanks_quote, parse_string_quote, sapp_cons, sapp_nil.
    rewrite skip_blanks_head by reflexivity.
    cbn [Ascii.eqb Bool.eqb]. rewrite (Hv Hsv fuel); [reflexivity | lia | reflexivity].
  - change (join (map member_text ((k, v) :: w :: ws)))
      with (member_text (k, v) +:+ "," +:+ join (map member_text (w :: ws))).
    unfold member_text at 1. cbn [fst snd].
    rewrite !sapp_assoc, skip_blanks_quote, parse_string_quote, !sapp_cons, !sapp_nil.
    rewrite skip_blanks_head by reflexivity.
    cbn [Ascii.eqb Bool.eqb]. rewrite (Hv Hsv fuel); [| lia | reflexivity].
    rewrite skip_blanks_head by reflexivity.
    cbn [Ascii.eqb Bool.eqb]. rewrite IH; [reflexivity | assumption | congruence | lia].
Qed.

Lemma define_fresh k v fs :
  k ∉ map fst fs -> define k v fs = fs ++ [(k, v)].
Proof.
  induction fs as [|[k' v'] fs IH]; [reflexivity|]. cbn [map fst define].
  intros [Hne Hin]%not_elem_of_cons.
  destruct (String.eqb_spec k k'); [contradiction|]. now rewrite IH.
Qed.

Lemma fold_define_distinct members acc :
  NoDup (map fst (acc ++ members)) ->
  fold_left (fun fs kv => define (fst kv) (snd kv) fs) members acc = acc ++ members.
Proof.
  revert acc. induction members as [|[k v] ms IH]; intros acc Hnd; cbn [fold_left fst snd].
  - now rewrite app_nil_r.
  - rewrite define_fresh.
    + rewrite IH; rewrite <- app_assoc; [reflexivity | exact Hnd].
    + rewrite map_app in Hnd. apply NoDup_app in Hnd as (_ & Hdisj & _).
      intros Hin. apply (Hdisj k Hin). left.
Qed.

(** Members with pairwise distinct names are the object as they stand. *)
Lemma object_of_distinct members :
  NoDup (map fst members) -> object_of members = members.
Proof. intros Hnd. unfold object_of. now rewrite fold_define_distinct. Qed.

Lemma join_text_head v vs rest :
  exists tail, join (map text (v :: vs)) +:+ rest = text v +:+ tail.
Proof.
  destruct vs as [|w ws]; cbn [map join]; [now exists rest|].
  rewrite sapp_assoc. eauto.
Qed.

Lemma parse_value_text v : round_trips v.
Proof.
  induction v as [| |b|n|s|items IH|fields IH] using value_ind;
    intros Hser fuel rest Hfuel Hrest; try discriminate;
    (destruct fuel as [|fuel]; [cbn in Hfuel; lia|]).
  - reflexivity.
  - destruct b; reflexivity.
  - destruct (show_Z_head n) as (c & r & Hs & Hc).
    pose proof (parse_number_show_Z n rest Hrest) as Hp.
    cbn [text] in *. rewrite Hs, sapp_cons in *. cbn [parse_value].
    apply number_head in Hc as (Hn & Ht & Hf & Hq & Ha & Ho & _ & Hb).
    rewrite skip_blanks_head by assumption.
    now rewrite Hn, Ht, Hf, Hq, Ha, Ho, Hp.
  - cbn [text]. unfold quote. rewrite sapp_cons, sapp_assoc, sapp_cons, sapp_nil.
    cbn [parse_value]. rewrite skip_blanks_head by reflexivity.
    cbn [Ascii.eqb Bool.eqb dquote]. fold dquote.
    now rewrite parse_body_quote_body.
  - cbn [text serializable size] in *. rewrite !sapp_assoc, !sapp_cons, !sapp_nil.
    cbn [parse_value]. rewrite skip_blanks_head by reflexivity.
    cbn [Ascii.eqb Bool.eqb dquote].
    destruct items as [|v vs]; [reflexivity|].
    destruct (join_text_head v vs (String "]" rest)) as (tail & Htail).
    rewrite Htail, skip_blanks_text, strip_bracket_text, <- Htail.
    rewrite parse_elements_join; [reflexivity | assumption | assumption | congruence | lia].
  - cbn [text serializable size] in *. apply andb_prop in Hser as [Hkeys Hser].
    rewrite members_serializable by assumption.
    rewrite !sapp_assoc, !sapp_cons, !sapp_nil.
    cbn [parse_value]. rewrite skip_blanks_head by reflexivity.
    cbn [Ascii.eqb Bool.eqb dquote].
    destruct fields as [|[k v] fs]; [reflexivity|].
    replace (strip "}" _) with (@None string).
    2:{ symmetry. cbn [map]. unfold member_text at 1, quote.
        destruct fs; cbn [join map]; rewrite ?sapp_assoc, ?sapp_cons; reflexivity. }
    rewrite parse_members_join; [| assumption | assumption | congruence | lia].
    rewrite object_of_distinct; [reflexivity|].
    unfold keys_distinct in Hkeys. now apply bool_decide_eq_true in Hkeys.
Qed.

Lemma join_length parts :
  list_sum (map (fun p => S (String.length p)) parts) <= S (String.length (join parts)).
Proof.
  induction parts as [|p [|q ps] IH]; [simpl; lia | simpl; lia |].
  change (join (p :: q :: ps)) with (p +:+ "," +:+ join (q :: ps)).
  rewrite !sapp_length. remember (join (q :: ps)) as j. simpl in *. lia.
Qed.

Lemma list_sum_le {A} (f g : A -> nat) l :
  Forall (fun x => f x <= g x) l -> list_sum (map f l) <= list_sum (map g l).
Proof. induction 1; simpl; lia. Qed.

Lemma size_le_length v : serializable v = true -> size v <= String.length (text v).
Proof.
  induction v as [| |b|n|s|items IH|fields IH] using value_ind; intros Hser;
    try discriminate.
  - simpl; lia.
  - destruct b; simpl; lia.
  - destruct (show_Z_head n) as (c & r & Hs & _). cbn [text size]. rewrite Hs. simpl; lia.
  - cbn [text size]. unfold quote. simpl; lia.
  - cbn [text size serializable] in *. rewrite !sapp_length. simpl String.length.
    pose proof (join_length (map text items)) as Hj. rewrite map_map in Hj.
    assert (list_sum (map (fun x => S (size x)) items)
            <= list_sum (map (fun x => S (String.length (text x))) items)); [|lia].
    apply list_sum_le. rewrite forallb_forall in Hser. rewrite Forall_forall in IH |- *.
    intros x Hx. apply le_n_S, IH; [assumption | apply Hser; now apply list_elem_of_In].
  - cbn [text size serializable] in *. apply andb_prop in Hser as [_ Hser].
    rewrite members_serializable by assumption.
    rewrite !sapp_length. simpl String.length.
    pose proof (join_length (map member_text fields)) as Hj. rewrite map_map in Hj.
    assert (list_sum (map (fun kv => S (size (snd kv))) fields)
            <= list_sum (map (fun kv => S (String.length (member_text kv))) fields)); [|lia].
    apply list_sum_le. rewrite forallb_forall in Hser. rewrite Forall_forall in IH |- *.
    intros kv Hkv. unfold member_text. rewrite !sapp_length.
    specialize (IH kv Hkv (Hser kv ltac:(now apply list_elem_of_In))). lia.
Qed.

(** [JSON.parse] reads back what [JSON.stringify] wrote. *)
Lemma parse_text v : serializable v = true -> parse (text v) = Some v.
Proof.
  intros Hser. unfold parse.
  rewrite <- (sapp_nil_r (text v)) at 2.
  rewrite parse_value_text; [reflexivity | assumption | | exact I].
  apply size_le_length in Hser. lia.
Qed.

Lemma stringify_serializable v :
  serializable v = true -> stringify v = Some (text v) /\ text v <> "".
Proof.
  intros Hser. split.
  - destruct v; [discriminate | reflexivity..].
  - pose proof (size_le_length v Hser) as Hl. intros E. rewrite E in Hl.
    destruct v; simpl in Hl; lia.
Qed.

Lemma copy_serializable v : serializable v = true -> copy v = v.
Proof.
  induction v as [| |b|n|s|items IH|fields IH] using value_ind; intros Hser;
    try reflexivity; cbn [copy serializable] in *.
  - f_equal. induction IH as [|x xs Hx _ IHxs]; [reflexivity|].
    cbn [forallb] in Hser. apply andb_prop in Hser as [Hsx Hsxs].
    cbn [map]. rewrite IHxs by assumption. rewrite (Hx Hsx).
    destruct x; [discriminate | reflexivity..].
  - apply andb_prop in Hser as [_ Hser]. f_equal.
    induction IH as [|[k x] fs Hx _ IHfs]; [reflexivity|].
    cbn [forallb snd] in Hser, Hx. apply andb_prop in Hser as [Hsx Hsfs].
    cbn [flat_map]. rewrite IHfs by assumption. rewrite (Hx Hsx).
    destruct x; [discriminate | reflexivity..].
Qed.
End JsonFacts.

(** ** The webview side *)
Section WebviewFacts.
Import Webview.

Lemma NoDup_map_inj {A B} (f : A -> B) (l : list A) x y :
  NoDup (map f l) -> x ∈ l -> y ∈ l -> f x = f y -> x = y.
Proof.
  induction l as [|z l IH]; intros Hnd Hx Hy Hf; [inversion Hx|].
  cbn [map] in Hnd. apply NoDup_cons in Hnd as [Hz Hnd].
  apply elem_of_cons in Hx as [->|Hx]; apply elem_of_cons in Hy as [->|Hy];
    [reflexivity | | | now apply IH].
  - exfalso. apply Hz. rewrite Hf. apply list_elem_of_In, in_map, list_elem_of_In, Hy.
  - exfalso. apply Hz. rewrite <- Hf. apply list_elem_of_In, in_map, list_elem_of_In, Hx.
Qed.

Lemma NoDup_map_filter {A B} (f : A -> B) (P : A -> Prop) `{!forall x, Decision (P x)}
    (l : list A) :
  NoDup (map f l) -> NoDup (map f (filter P l)).
Proof.
  induction l as [|z l IH]; [intros; constructor|].
  cbn [map]. intros [Hz Hnd]%NoDup_cons. rewrite filter_cons.
  destruct (decide (P z)); [|now apply IH].
  cbn [map]. apply NoDup_cons. split; [|now apply IH].
  intros Hin. apply Hz. apply list_elem_of_In in Hin. apply in_map_iff in Hin as (y & Hy & Hin).
  apply list_elem_of_In, in_map_iff. exists y. split; [assumption|].
  apply list_elem_of_In in Hin. apply list_elem_of_filter in Hin as [_ Hin].
  now apply list_elem_of_In.
Qed.

(** *** A message event *)
Section Event.
Variable m : Message.

Lemma fired_cons l ls :
  fired m (l :: ls)
  = if decide (command m = l_id l) then l_promise l :: fired m ls else fired m ls.
Proof. unfold fired. rewrite filter_cons. now destruct (decide _). Qed.

Lemma listener_skip l w : command m <> l_id l -> listener l m w = w.
Proof.
  intros Hne. unfold listener.
  destruct (String.eqb_spec (command m) (l_id l)); [contradiction | reflexivity].
Qed.

Lemma listener_without_data l w : data m = None -> listener l m w = w.
Proof. intros Hd. unfold listener. rewrite Hd. now destruct (String.eqb _ _). Qed.

Lemma fold_without_data ls w :
  data m = None -> fold_left (fun w' l => listener l m w') ls w = w.
Proof.
  intros Hd. induction ls as [|l ls IH]; [reflexivity|].
  cbn [fold_left]. now rewrite listener_without_data.
Qed.

Variable xs : list value.
Hypothesis Hdata : data m = Some xs.

Lemma listener_fire l w :
  command m = l_id l ->
  listener l m w = removeEventListener l (resolve (l_promise l) (nth 0 xs VUndefined) w).
Proof.
  intros He. unfold listener. rewrite Hdata.
  destruct (String.eqb_spec (command m) (l_id l)); [reflexivity | contradiction].
Qed.

Lemma resolve_listeners p v w : listeners (resolve p v w) = listeners w.
Proof. unfold resolve. now destruct (settled w !! p). Qed.

Lemma resolve_settled p v w q :
  settled (resolve p v w) !! q =
  match settled w !! q with
  | Some old => Some old
  | None => if decide (q = p) then Some v else None
  end.
Proof.
  unfold resolve. destruct (settled w !! p) as [old|] eqn:Hp.
  - destruct (settled w !! q) eqn:Hq; [reflexivity|].
    destruct (decide (q = p)) as [->|]; [congruence | reflexivity].
  - cbn [settled]. destruct (decide (q = p)) as [->|Hne].
    + rewrite lookup_insert_eq, Hp. reflexivity.
    + rewrite lookup_insert_ne by congruence. now destruct (settled w !! q).
Qed.

Lemma fold_listeners ls w :
  listeners (fold_left (fun w' l => listener l m w') ls w)
  = filter (fun a => l_promise a ∉ fired m ls) (listeners w).
Proof.
  revert w. induction ls as [|l ls IH]; intros w; cbn [fold_left].
  - symmetry. induction (listeners w) as [|a l IHl]; [reflexivity|].
    rewrite filter_cons_True, IHl; [reflexivity|]. unfold fired. cbn. apply not_elem_of_nil.
  - rewrite IH, fired_cons.
    destruct (decide (command m = l_id l)) as [He|Hne].
    + rewrite listener_fire by assumption. cbn [removeEventListener set_listeners listeners].
      rewrite resolve_listeners, list_filter_filter. apply list_filter_iff.
      intros a. rewrite not_elem_of_cons. tauto.
    + now rewrite listener_skip.
Qed.

Lemma fold_settled ls w p :
  settled (fold_left (fun w' l => listener l m w') ls w) !! p
  = match settled w !! p with
    | Some old => Some old
    | None => if decide (p ∈ fired m ls) then Some (nth 0 xs VUndefined) else None
    end.
Proof.
  revert w. induction ls as [|l ls IH]; intros w; cbn [fold_left].
  - destruct (settled w !! p); [reflexivity|].
    destruct (decide (p ∈ fired m [])) as [Hin|]; [|reflexivity].
    unfold fired in Hin. cbn in Hin. now apply elem_of_nil in Hin.
  - rewrite IH, fired_cons.
    destruct (decide (command m = l_id l)) as [He|Hne].
    + rewrite listener_fire by assumption. cbn [removeEventListener set_listeners settled].
      rewrite resolve_settled.
      destruct (settled w !! p); [reflexivity|].
      destruct (decide (p = l_promise l)) as [->|Hp].
      * destruct (decide (l_promise l ∈ l_promise l :: fired m ls)) as [|Hn]; [reflexivity|].
        exfalso. apply Hn. left.
      * destruct (decide (p ∈ fired m ls)) as [Hin|Hin];
          destruct (decide (p ∈ l_promise l :: fired m ls)) as [Hin'|Hin']; try reflexivity.
        -- exfalso. apply Hin'. now right.
        -- apply elem_of_cons in Hin' as [?|?]; contradiction.
    + rewrite listener_skip by assumption. reflexivity.
Qed.

End Event.

Lemma same_page_refl w : same_page w w.
Proof. repeat split. Qed.

Lemma same_page_trans w1 w2 w3 : same_page w1 w2 -> same_page w2 w3 -> same_page w1 w3.
Proof. unfold same_page. intros (?&?&?&?&?&?&?) (?&?&?&?&?&?&?). repeat split; congruence. Qed.

Lemma resolve_same_page p v w : same_page w (resolve p v w).
Proof. unfold resolve. destruct (settled w !! p); repeat split. Qed.

Lemma listener_same_page l m w : same_page w (listener l m w).
Proof.
  unfold listener. destruct (String.eqb _ _); [|apply same_page_refl].
  destruct (data m); [|apply same_page_refl].
  eapply same_page_trans; [apply resolve_same_page | repeat split].
Qed.

Lemma dispatchEvent_same_page m w : same_page w (dispatchEvent m w).
Proof.
  unfold dispatchEvent. generalize (listeners w) as ls. intros ls. revert w.
  induction ls as [|l ls IH]; intros w; cbn [fold_left]; [apply same_page_refl|].
  eapply same_page_trans; [apply listener_same_page | apply IH].
Qed.

Lemma elem_of_fired m ls p :
  p ∈ fired m ls <-> exists l, l ∈ ls /\ command m = l_id l /\ l_promise l = p.
Proof.
  unfold fired. rewrite list_elem_of_In, in_map_iff. split.
  - intros (l & Hp & Hin). apply list_elem_of_In, list_elem_of_filter in Hin as [He Hin]. eauto.
  - intros (l & Hin & He & Hp). exists l. split; [assumption|].
    apply list_elem_of_In, list_elem_of_filter. auto.
Qed.

(** A message event leaves the state consistent. *)
Lemma dispatchEvent_consistent m w : consistent w -> consistent (dispatchEvent m w).
Proof.
  intros Hw. pose proof (dispatchEvent_same_page m w) as (Ha & Hn & Hv & Hp & _).
  destruct (data m) as [xs|] eqn:Hd.
  2:{ unfold dispatchEvent. now rewrite fold_without_data. }
  destruct Hw as [Hfield Honce Hown Hatt Hknown].
  pose proof (fold_listeners m xs Hd (listeners w) w) as Hl.
  pose proof (fold_settled m xs Hd (listeners w) w) as Hs.
  fold (dispatchEvent m w) in Hl, Hs.
  split.
  - now rewrite Hv, Ha.
  - now rewrite Hn, Ha.
  - rewrite Hl. now apply NoDup_map_filter.
  - rewrite Hl, Hp. rewrite Forall_forall in Hatt |- *.
    intros a [Hnf Hin]%list_elem_of_filter. destruct (Hatt a Hin) as [Hlt Hnone].
    split; [assumption|]. rewrite Hs, Hnone. now destruct (decide _).
  - intros p v. rewrite Hs, Hp. destruct (settled w !! p) as [old|] eqn:Hsp.
    + intros _. eapply Hknown, Hsp.
    + destruct (decide _) as [Hin|]; [|discriminate]. intros _.
      apply elem_of_fired in Hin as (l & Hin & _ & <-).
      rewrite Forall_forall in Hatt. apply (Hatt l Hin).
Qed.

(** A listener whose token differs from the command stays attached. *)
Lemma dispatchEvent_other m w a :
  consistent w -> a ∈ listeners w -> command m <> l_id a ->
  a ∈ listeners (dispatchEvent m w).
Proof.
  intros Hw Hin Hne. destruct (data m) as [xs|] eqn:Hd.
  2:{ unfold dispatchEvent. now rewrite fold_without_data. }
  unfold dispatchEvent. rewrite (fold_listeners m xs Hd).
  apply list_elem_of_filter. split; [|assumption].
  intros (l & Hl & He & Hp)%elem_of_fired.
  assert (l = a) as -> by (eapply NoDup_map_inj; eauto using own_promise).
  contradiction.
Qed.

(** A listener whose token is the command settles its promise with the
    first element of [data] and detaches. *)
Lemma dispatchEvent_match m xs w b :
  consistent w -> b ∈ listeners w -> command m = l_id b -> data m = Some xs ->
  settled (dispatchEvent m w) !! l_promise b = Some (nth 0 xs VUndefined) /\
  b ∉ listeners (dispatchEvent m w).
Proof.
  intros Hw Hin He Hd. unfold dispatchEvent.
  assert (Hf : l_promise b ∈ fired m (listeners w)) by (apply elem_of_fired; eauto).
  split.
  - rewrite (fold_settled m xs Hd).
    pose proof (attached_pending w Hw) as Hatt. rewrite Forall_forall in Hatt.
    destruct (Hatt b Hin) as [_ ->]. now destruct (decide _).
  - rewrite (fold_listeners m xs Hd). intros [Hnf _]%list_elem_of_filter. contradiction.
Qed.

(** *** The methods of the wrapper *)

Lemma settled_fresh w : consistent w -> settled w !! promises w = None.
Proof.
  intros Hw. destruct (settled w !! promises w) as [v|] eqn:Hs; [|reflexivity].
  apply (settled_known w Hw) in Hs. lia.
Qed.

Lemma postMessage_consistent m w : consistent w -> consistent (postMessage m w).
Proof.
  intros [Hfield Honce Hown Hatt Hknown]. unfold postMessage.
  destruct (vsCodeApi w) as [[]|] eqn:Hv; split; cbn; try assumption; now rewrite <- Hv.
Qed.

(** Without the global [acquireVsCodeApi], [invoke] settles its promise with
    the default and does nothing else. *)
Lemma invoke_degraded o now random w :
  acquire_defined w = false ->
  invoke o now random w
  = (promises w, resolve (promises w) (o_default o) (snd (new_promise w))).
Proof. intros Hd. unfold invoke. cbn. now rewrite Hd. Qed.

(** With it, [invoke] attaches a listener for a new token and posts the
    request that carries the token. *)
Lemma invoke_request o now random w :
  acquire_defined w = true ->
  invoke o now random w
  = (promises w,
     postMessage {| command := o_command o; data := o_args o;
                    callback := Some (make_id now random) |}
       (addEventListener {| l_id := make_id now random; l_promise := promises w |}
          (snd (new_promise w)))).
Proof. intros Hd. unfold invoke. cbn. now rewrite Hd. Qed.

Lemma invoke_consistent o now random w :
  consistent w -> consistent (snd (invoke o now random w)).
Proof.
  intros Hw. pose proof (settled_fresh w Hw) as Hfresh.
  destruct Hw as [Hfield Honce Hown Hatt Hknown].
  destruct (acquire_defined w) eqn:Hd.
  - rewrite invoke_request by assumption. cbn [snd].
    apply postMessage_consistent. split; cbn; rewrite ?Hd; try assumption.
    + rewrite map_app. apply NoDup_app. split; [assumption|]. split; [|apply NoDup_singleton].
      intros p Hp Hq. apply list_elem_of_singleton in Hq. subst p.
      apply list_elem_of_In, in_map_iff in Hp as (l & Hl & Hin).
      rewrite Forall_forall in Hatt. apply list_elem_of_In in Hin.
      destruct (Hatt l Hin). cbn in *. lia.
    + apply Forall_app. split.
      * eapply Forall_impl; [exact Hatt|]. cbn. intros l [? ?]. split; [lia | assumption].
      * constructor; [|constructor]. cbn. split; [lia | assumption].
    + intros p v Hp. apply Hknown in Hp. lia.
  - rewrite invoke_degraded by assumption. cbn [snd]. unfold resolve, new_promise.
    cbn. rewrite Hfresh. split; cbn; rewrite ?Hd; try assumption.
    + eapply Forall_impl; [exact Hatt|]. cbn. intros l [Hlt Hn]. split; [lia|].
      rewrite lookup_insert_ne by lia. assumption.
    + intros p v. destruct (decide (p = promises w)) as [->|Hne]; [lia|].
      rewrite lookup_insert_ne by congruence. intros Hp. apply Hknown in Hp. lia.
Qed.

Lemma getState_consistent key now random w :
  consistent w -> consistent (snd (getState key now random w)).
Proof.
  intros Hw. unfold getState. destruct (vsCodeApi w) as [[]|].
  - pose proof (invoke_consistent {| o_command := "getState"; o_default := VUndefined;
                                     o_args := Some [VStr key] |} now random w Hw) as Hi.
    now destruct (invoke _ _ _ _).
  - destruct (localStorage w !! key) as [[|c s]|]; try exact Hw.
    now destruct (JSON.parse _).
Qed.

Lemma setState_consistent key v now random w :
  consistent w -> consistent (snd (setState key v now random w)).
Proof.
  intros Hw. unfold setState. destruct (vsCodeApi w) as [[]|].
  - pose proof (invoke_consistent {| o_command := "setState"; o_default := VUndefined;
                                     o_args := Some [VStr key; v] |} now random w Hw) as Hi.
    now destruct (invoke _ _ _ _).
  - destruct Hw. split; assumption.
Qed.

Lemma construct_consistent page : consistent (construct page).
Proof.
  unfold construct. cbn.
  destruct (has_acquireVsCodeApi page) eqn:Hpage; split; cbn; rewrite ?Hpage;
    first [ reflexivity | apply NoDup_nil_2 | apply Forall_nil_2
          | intros p v Hp; now rewrite lookup_empty in Hp ].
Qed.

Lemma construct_global page : acquire_defined (construct page) = has_acquireVsCodeApi page.
Proof.
  unfold construct. cbn. destruct (has_acquireVsCodeApi page) eqn:Hpage; cbn; now rewrite ?Hpage.
Qed.

Lemma construct_memo page :
  acquisitions (construct page) = (if has_acquireVsCodeApi page then 1 else 0)
  /\ vsCodeApi (construct page)
     = (if has_acquireVsCodeApi page then Some HostChannel else None).
Proof. unfold construct. cbn. now destruct (has_acquireVsCodeApi page). Qed.

Lemma construct_pending page : pending_ids (construct page) = [].
Proof. unfold construct. cbn. now destruct (has_acquireVsCodeApi page). Qed.

Lemma step_consistent w op : consistent w -> consistent (step w op).
Proof.
  destruct op; cbn [step];
    auto using postMessage_consistent, invoke_consistent, getState_consistent,
      setState_consistent, dispatchEvent_consistent.
Qed.

Lemma run_consistent ops w : consistent w -> consistent (run ops w).
Proof.
  unfold run. revert w. induction ops as [|op ops IH]; intros w Hw; [exact Hw|].
  cbn [fold_left]. apply IH, step_consistent, Hw.
Qed.

Lemma postMessage_global m w : acquire_defined (postMessage m w) = acquire_defined w.
Proof. unfold postMessage. now destruct (vsCodeApi w) as [[]|]. Qed.

Lemma invoke_global o now random w :
  acquire_defined (snd (invoke o now random w)) = acquire_defined w.
Proof.
  destruct (acquire_defined w) eqn:Hd.
  - rewrite invoke_request by assumption. cbn [snd]. now rewrite postMessage_global.
  - rewrite invoke_degraded by assumption. cbn [snd].
    now destruct (resolve_same_page (promises w) (o_default o) (snd (new_promise w))) as [-> _].
Qed.

(** No method rebinds the global the constructor tested. *)
Lemma step_global w op : acquire_defined (step w op) = acquire_defined w.
Proof.
  destruct op; cbn [step].
  - apply postMessage_global.
  - apply invoke_global.
  - unfold getState. destruct (vsCodeApi w) as [[]|].
    + rewrite <- (invoke_global {| o_command := "getState"; o_default := VUndefined;
                                   o_args := Some [VStr key] |} now random w).
      now destruct (invoke _ _ _ _).
    + destruct (localStorage w !! key) as [[|c s]|]; try reflexivity.
      now destruct (JSON.parse _).
  - unfold setState. destruct (vsCodeApi w) as [[]|]; [|reflexivity].
    rewrite <- (invoke_global {| o_command := "setState"; o_default := VUndefined;
                                 o_args := Some [VStr key; newState] |} now random w).
    now destruct (invoke _ _ _ _).
  - apply (dispatchEvent_same_page m w).
Qed.

Lemma run_global ops w : acquire_defined (run ops w) = acquire_defined w.
Proof.
  unfold run. revert w. induction ops as [|op ops IH]; intros w; [reflexivity|].
  cbn [fold_left]. now rewrite IH, step_global.
Qed.

(** *** Correlation tokens *)

Lemma make_id_digits now random :
  JSON.parse_digits (make_id now random) = (N.to_uint now, String "_" random).
Proof.
  unfold make_id, show_N. rewrite sapp_cons, sapp_nil.
  now apply parse_digits_string_of_uint.
Qed.

(** The token determines the samples it was built from. *)
Lemma make_id_inj now random now' random' :
  make_id now random = make_id now' random' -> now = now' /\ random = random'.
Proof.
  intros He. pose proof (make_id_digits now random) as H1.
  rewrite He, make_id_digits in H1. injection H1 as Hn Hr. split; [|congruence].
  rewrite <- (DecimalN.Unsigned.of_to now), <- (DecimalN.Unsigned.of_to now'). congruence.
Qed.

Lemma make_id_nonempty now random : exists c s, make_id now random = String c s.
Proof.
  unfold make_id. destruct (show_N now) as [|c s]; [now exists "_"%char, random|].
  rewrite sapp_cons. eauto.
Qed.

Lemma postMessage_listeners m w : listeners (postMessage m w) = listeners w.
Proof. unfold postMessage. now destruct (vsCodeApi w) as [[]|]. Qed.

Lemma invoke_pending o now random w :
  pending_ids (snd (invoke o now random w))
  = if acquire_defined w then pending_ids w ++ [make_id now random] else pending_ids w.
Proof.
  unfold pending_ids. destruct (acquire_defined w) eqn:Hd.
  - rewrite invoke_request by assumption. cbn [snd]. rewrite postMessage_listeners.
    cbn. now rewrite map_app.
  - rewrite invoke_degraded by assumption. cbn [snd]. now rewrite resolve_listeners.
Qed.

Lemma invoke_pending_sublist o now random w :
  pending_ids (snd (invoke o now random w)) `sublist_of` pending_ids w ++ [make_id now random].
Proof.
  rewrite invoke_pending. destruct (acquire_defined w); [reflexivity|].
  apply sublist_inserts_r. reflexivity.
Qed.

Lemma dispatchEvent_pending m w :
  pending_ids (dispatchEvent m w) `sublist_of` pending_ids w.
Proof.
  unfold pending_ids, dispatchEvent. destruct (data m) as [xs|] eqn:Hd.
  2:{ now rewrite fold_without_data. }
  rewrite (fold_listeners m xs Hd).
  change (map l_id ?l) with (l_id <$> l). apply fmap_sublist, sublist_filter.
Qed.

(** The listeners a step leaves are those attached before it, in order,
    less the ones that fired, and the one it added for its own samples. *)
Lemma step_pending w op :
  pending_ids (step w op)
  `sublist_of` pending_ids w ++ map (fun s => make_id s.1 s.2) (samples_of op).
Proof.
  destruct op; cbn [step samples_of map fst snd].
  - unfold pending_ids. rewrite postMessage_listeners, app_nil_r. reflexivity.
  - apply invoke_pending_sublist.
  - unfold getState. destruct (vsCodeApi w) as [[]|] eqn:Hv.
    + pose proof (invoke_pending_sublist {| o_command := "getState"; o_default := VUndefined;
                          o_args := Some [VStr key] |} now random w) as Hi.
      now destruct (invoke _ _ _ _).
    + apply sublist_inserts_r.
      destruct (localStorage w !! key) as [[|c s]|]; try destruct (JSON.parse _); reflexivity.
  - unfold setState. destruct (vsCodeApi w) as [[]|] eqn:Hv.
    + pose proof (invoke_pending_sublist {| o_command := "setState"; o_default := VUndefined;
                          o_args := Some [VStr key; newState] |} now random w) as Hi.
      now destruct (invoke _ _ _ _).
    + apply sublist_inserts_r. reflexivity.
  - rewrite app_nil_r. apply dispatchEvent_pending.
Qed.

Lemma run_pending ops w :
  pending_ids (run ops w)
  `sublist_of` pending_ids w ++ map (fun s => make_id s.1 s.2) (samples ops).
Proof.
  unfold run. revert w. induction ops as [|op ops IH]; intros w; cbn [fold_left].
  - cbn. rewrite app_nil_r. reflexivity.
  - etrans; [apply IH|]. unfold samples. cbn [flat_map]. rewrite map_app, app_assoc.
    apply sublist_app; [apply step_pending | reflexivity].
Qed.

Lemma make_id_NoDup (l : list (N * string)) :
  NoDup l -> NoDup (map (fun s => make_id s.1 s.2) l).
Proof.
  intros Hl. change (map ?f l) with (f <$> l). apply NoDup_fmap_2; [|assumption].
  intros [n r] [n' r'] He. cbn in He. apply make_id_inj in He as [-> ->]. reflexivity.
Qed.

(** *** What the claims say of the wrapper *)

Lemma run_field page ops :
  vsCodeApi (run ops (construct page))
  = if has_acquireVsCodeApi page then Some HostChannel else None.
Proof.
  pose proof (run_consistent ops _ (construct_consistent page)) as Hw.
  rewrite (memo_field _ Hw), run_global, construct_global. reflexivity.
Qed.

Lemma dispatchEvent_settled_mono m w p v :
  settled w !! p = Some v -> settled (dispatchEvent m w) !! p = Some v.
Proof.
  intros Hp. unfold dispatchEvent. destruct (data m) as [xs|] eqn:Hd.
  - now rewrite (fold_settled m xs Hd), Hp.
  - now rewrite fold_without_data.
Qed.

(** C4: with no host channel, [invoke] settles the promise it returns with
    the default of the caller before it returns; nothing is posted, no
    listener is attached, nothing is logged. *)
Theorem invoke_without_channel page ops o now random :
  has_acquireVsCodeApi page = false ->
  let w := run ops (construct page) in
  let '(p, w') := invoke o now random w in
  settled w' !! p = Some (o_default o)
  /\ outbox w' = outbox w
  /\ listeners w' = listeners w
  /\ console w' = console w.
Proof.
  intros Hpage w.
  pose proof (run_consistent ops _ (construct_consistent page)) as Hw. fold w in Hw.
  assert (Hd : acquire_defined w = false)
    by (unfold w; now rewrite run_global, construct_global).
  rewrite invoke_degraded by assumption.
  unfold resolve, new_promise. cbn. rewrite (settled_fresh w Hw). cbn.
  rewrite lookup_insert_eq. auto.
Qed.

Lemma invoke_without_channel_witness :
  has_acquireVsCodeApi Examples.browser_page = false
  /\ let '(p, w') := invoke Examples.select_path 7 "0.25"
                       (run [DoInvoke Examples.say_hello 3 "0.5"]
                          (construct Examples.browser_page)) in
     settled w' !! p = Some (VStr "nowhere") /\ outbox w' = [] /\ listeners w' = []
     /\ console w' = [].
Proof.
  split; [reflexivity|].
  apply (invoke_without_channel Examples.browser_page
           [DoInvoke Examples.say_hello 3 "0.5"] Examples.select_path 7 "0.25").
  reflexivity.
Defined.

(** C5 fails as stated: two calls that draw the same clock and random
    samples wait under the same token. *)
Lemma token_collision :
  let w := run [DoInvoke Examples.select_path 7 "0.25";
                DoInvoke Examples.say_hello 7 "0.25"]
             (construct Examples.vscode_page) in
  pending_ids w = ["7_0.25"; "7_0.25"] /\ ~ NoDup (pending_ids w).
Proof.
  split; [reflexivity|]. cbn. intros [Hnot _]%NoDup_cons. apply Hnot. left.
Qed.

(** C5, as the code has it: on the host-channel path every call attaches
    a listener under the token [Date.now() + '_' + Math.random()] whatever
    is pending, so that a token already waited under is waited under
    twice; the token determines the pair of samples; a call whose pair
    differs from those of the earlier calls gets a token no listener waits
    under; and while the pairs drawn are pairwise distinct so are the
    tokens of the attached listeners. *)
Theorem tokens_distinct page ops :
  let w := run ops (construct page) in
  (has_acquireVsCodeApi page = true ->
   forall o now random,
     pending_ids (snd (invoke o now random w)) = pending_ids w ++ [make_id now random]
     /\ (make_id now random ∈ pending_ids w ->
         ~ NoDup (pending_ids (snd (invoke o now random w)))))
  /\ (forall now random now' random',
        make_id now random = make_id now' random' -> now = now' /\ random = random')
  /\ (forall now random,
        ((now, random) ∉ samples ops) -> make_id now random ∉ pending_ids w)
  /\ (NoDup (samples ops) -> NoDup (pending_ids w)).
Proof.
  cbn zeta. pose proof (run_pending ops (construct page)) as Hsub.
  rewrite construct_pending in Hsub. cbn [app] in Hsub.
  split; [|split; [|split]].
  - intros Hpage o now random.
    assert (Hadd : pending_ids (snd (invoke o now random (run ops (construct page))))
                   = pending_ids (run ops (construct page)) ++ [make_id now random]).
    { now rewrite invoke_pending, run_global, construct_global, Hpage. }
    split; [exact Hadd|]. rewrite Hadd. intros Hin Hnd.
    apply NoDup_app in Hnd as (_ & Hdisjoint & _).
    apply (Hdisjoint _ Hin). left.
  - intros now random now' random'. apply make_id_inj.
  - intros now random Hfresh Hin.
    apply (elem_of_sublist _ _ _ Hin) in Hsub as Hin'.
    apply list_elem_of_In, in_map_iff in Hin' as ([n r] & He & Hin'). cbn in He.
    apply make_id_inj in He as [-> ->]. apply Hfresh, list_elem_of_In, Hin'.
  - intros Hnd. eapply sublist_NoDup; [| exact Hsub]. now apply make_id_NoDup.
Qed.

Lemma tokens_distinct_witness :
  let ops := [DoInvoke Examples.select_path 7 "0.25"; DoInvoke Examples.say_hello 7 "0.5"] in
  let w := run ops (construct Examples.vscode_page) in
  NoDup (samples ops)
  /\ NoDup (pending_ids w)
  /\ pending_ids (snd (invoke Examples.say_hello 7 "0.5" w))
     = pending_ids w ++ [make_id 7 "0.5"]
  /\ ~ NoDup (pending_ids (snd (invoke Examples.say_hello 7 "0.5" w)))
  /\ (make_id 9 "0.5" ∉ pending_ids w).
Proof.
  intros ops w.
  destruct (tokens_distinct Examples.vscode_page ops) as (Hcall & _ & Hfresh & Hall).
  assert (H : NoDup (samples ops)).
  { apply (bool_decide_unpack _). vm_compute. reflexivity. }
  destruct (Hcall eq_refl Examples.say_hello 7%N "0.5") as [Hadd Htwice].
  split; [exact H|]. split; [exact (Hall H)|]. split; [exact Hadd|]. split.
  - apply Htwice. right. left.
  - apply Hfresh. intros Hin. apply (bool_decide_pack _) in Hin. vm_compute in Hin.
    exact (Is_true_false_2 _ eq_refl Hin).
Defined.

(** C6: of two attached listeners with different tokens, a message that
    bears the token of one settles that one and detaches it, and leaves the
    other attached with its promise pending; the two responses settle the
    two promises with their own values in whichever order they arrive. *)
Theorem waiters_independent page ops (a b : Listener) (mb : Message) :
  let w := run ops (construct page) in
  a ∈ listeners w -> b ∈ listeners w -> l_id a <> l_id b -> command mb = l_id b ->
  (a ∈ listeners (dispatchEvent mb w))
  /\ settled (dispatchEvent mb w) !! l_promise a = None
  /\ (forall xb, data mb = Some xb ->
        settled (dispatchEvent mb w) !! l_promise b = Some (nth 0 xb VUndefined)
        /\ (b ∉ listeners (dispatchEvent mb w)))
  /\ (forall ma xa xb,
        command ma = l_id a -> data ma = Some xa -> data mb = Some xb ->
        let b_first := dispatchEvent ma (dispatchEvent mb w) in
        let a_first := dispatchEvent mb (dispatchEvent ma w) in
        settled b_first !! l_promise a = Some (nth 0 xa VUndefined)
        /\ settled b_first !! l_promise b = Some (nth 0 xb VUndefined)
        /\ settled a_first !! l_promise a = Some (nth 0 xa VUndefined)
        /\ settled a_first !! l_promise b = Some (nth 0 xb VUndefined)).
Proof.
  intros w Ha Hb Hne Hmb.
  pose proof (run_consistent ops _ (construct_consistent page)) as Hw. fold w in Hw.
  assert (Hab : command mb <> l_id a) by congruence.
  pose proof (dispatchEvent_other mb w a Hw Ha Hab) as Ha'.
  pose proof (dispatchEvent_consistent mb w Hw) as Hw'.
  split; [exact Ha'|]. split.
  { pose proof (attached_pending _ Hw') as Hatt. rewrite Forall_forall in Hatt.
    apply (Hatt a Ha'). }
  split; [intros xb Hxb; now apply dispatchEvent_match|].
  intros ma xa xb Hma Hxa Hxb b_first a_first. unfold b_first, a_first.
  assert (Hba : command ma <> l_id b) by congruence.
  pose proof (dispatchEvent_other ma w b Hw Hb Hba) as Hb'.
  pose proof (dispatchEvent_consistent ma w Hw) as Hw''.
  destruct (dispatchEvent_match mb xb w b Hw Hb Hmb Hxb) as [Hsb _].
  destruct (dispatchEvent_match ma xa w a Hw Ha Hma Hxa) as [Hsa _].
  destruct (dispatchEvent_match ma xa _ a Hw' Ha' Hma Hxa) as [Hsa' _].
  destruct (dispatchEvent_match mb xb _ b Hw'' Hb' Hmb Hxb) as [Hsb' _].
  auto using dispatchEvent_settled_mono.
Qed.

Lemma waiters_independent_witness :
  let w := run [DoInvoke Examples.select_path 7 "0.25"; DoInvoke Examples.say_hello 8 "0.5"]
             (construct Examples.vscode_page) in
  let a := {| l_id := "7_0.25"; l_promise := 0 |} in
  let b := {| l_id := "8_0.5"; l_promise := 1 |} in
  let mb := {| command := "8_0.5"; data := Some [VNull]; callback := None |} in
  listeners w = [a; b]
  /\ (a ∈ listeners (dispatchEvent mb w))
  /\ settled (dispatchEvent mb w) !! l_promise a = None.
Proof.
  intros w a b mb. split; [reflexivity|].
  destruct (waiters_independent Examples.vscode_page
              [DoInvoke Examples.select_path 7 "0.25"; DoInvoke Examples.say_hello 8 "0.5"]
              a b mb) as (H1 & H2 & _).
  - apply list_elem_of_In. cbn. auto.
  - apply list_elem_of_In. cbn. auto.
  - discriminate.
  - reflexivity.
  - split; assumption.
Defined.

(** C8: the constructor calls [acquireVsCodeApi] at most once, exactly once
    when it is there, and stores what it got; no later operation calls it
    again or changes the field, and what [invoke], [postMessage],
    [getState] and [setState] do then is what the stored outcome says: the
    request and its listener when the handle was obtained, the default,
    the console and the local store when it was not. *)
Theorem acquisition_memoized page ops o now random m key v :
  let w := run ops (construct page) in
  acquisitions (construct page) = (if has_acquireVsCodeApi page then 1 else 0)
  /\ acquisitions w = acquisitions (construct page)
  /\ vsCodeApi w = vsCodeApi (construct page)
  /\ invoke o now random w
     = match vsCodeApi (construct page) with
       | Some HostChannel =>
           (promises w,
            postMessage {| command := o_command o; data := o_args o;
                           callback := Some (make_id now random) |}
              (addEventListener
                 {| l_id := make_id now random; l_promise := promises w |}
                 (snd (new_promise w))))
       | None =>
           (promises w, resolve (promises w) (o_default o) (snd (new_promise w)))
       end
  /\ (outbox (postMessage m w), console (postMessage m w))
     = match vsCodeApi (construct page) with
       | Some HostChannel => (m :: outbox w, console w)
       | None => (outbox w, m :: console w)
       end
  /\ match vsCodeApi (construct page) with
     | Some HostChannel =>
         fst (getState key now random w) = Later (promises w)
         /\ fst (setState key v now random w) = Later (promises w)
     | None =>
         (exists c, getState key now random w = (Now c, w))
         /\ fst (setState key v now random w) = Now (Returned VUndefined)
         /\ outbox (snd (setState key v now random w)) = outbox w
     end.
Proof.
  intros w.
  pose proof (run_consistent ops _ (construct_consistent page)) as Hw. fold w in Hw.
  pose proof (run_global ops (construct page)) as Hg. fold w in Hg.
  rewrite construct_global in Hg.
  pose proof (run_field page ops) as Hf. fold w in Hf.
  destruct (construct_memo page) as [Hcount Hfield]. rewrite Hcount, Hfield.
  split; [reflexivity|]. split; [rewrite (memo_once _ Hw), Hg; reflexivity|].
  split; [exact Hf|].
  unfold getState, setState, postMessage. rewrite Hf.
  destruct (has_acquireVsCodeApi page).
  - rewrite !invoke_request by assumption. auto.
  - rewrite invoke_degraded by assumption. repeat split.
    destruct (localStorage w !! key) as [[|c s]|]; try destruct (JSON.parse _); eauto.
Qed.

(** C9: with no host channel, [setState] stores the JSON text of a
    serializable value under the key, a following [getState] of the key
    parses it back to that value, and neither posts anything nor attaches a
    listener. *)
Theorem fallback_store_round_trip page ops key v now random now' random' :
  has_acquireVsCodeApi page = false ->
  JSON.serializable v = true ->
  let w := run ops (construct page) in
  let '(done, w1) := setState key v now random w in
  done = Now (Returned VUndefined)
  /\ JSON.stringify v = Some (JSON.text v)
  /\ localStorage w1 = <[key := JSON.text v]> (localStorage w)
  /\ getState key now' random' w1 = (Now (Returned v), w1)
  /\ outbox w1 = outbox w
  /\ listeners w1 = listeners w.
Proof.
  intros Hpage Hser w.
  pose proof (run_field page ops) as Hf. fold w in Hf. rewrite Hpage in Hf.
  destruct (stringify_serializable v Hser) as [Hstr Hne].
  unfold setState. rewrite Hf, Hstr. cbn [default id].
  split; [reflexivity|]. split; [reflexivity|]. split; [reflexivity|].
  split; [|split; reflexivity].
  unfold getState. cbn [setItem vsCodeApi localStorage]. rewrite Hf, lookup_insert_eq.
  destruct (JSON.text v) as [|c s] eqn:Ht; [congruence|].
  rewrite <- Ht, (parse_text v Hser). reflexivity.
Qed.

Lemma fallback_store_round_trip_witness :
  let v := VObj [("theme", VStr "dark"); ("sizes", VArr [VNum 0; VNull; VStr ""])] in
  has_acquireVsCodeApi Examples.browser_page = false
  /\ JSON.serializable v = true
  /\ let '(done, w1) := setState "ui" v 7 "0.25" (construct Examples.browser_page) in
     getState "ui" 8 "0.5" w1 = (Now (Returned v), w1).
Proof.
  intros v. split; [reflexivity|]. split; [reflexivity|].
  pose proof (fallback_store_round_trip Examples.browser_page [] "ui" v 7 "0.25" 8 "0.5"
                eq_refl eq_refl) as H.
  cbn [run fold_left] in H. destruct (setState "ui" v 7 "0.25" _) as [done w1].
  apply H.
Defined.

End WebviewFacts.

(** ** The extension side *)
Section PanelFacts.
Import Panel.

Lemma truthy_nonempty t : t <> "" -> truthy (Some t) = true.
Proof. destruct t; [congruence | reflexivity]. Qed.

Lemma not_found_inj c c' : not_found c = not_found c' -> c = c'.
Proof. unfold not_found. apply String.app_inj. Qed.

Section Dispatcher.
Variable map : gmap string Handler.

(** C2, as the code has it: for a registered command, a handler that
    returns and a non-empty callback token, the listener calls the handler
    once with exactly the elements of [data] and posts exactly one message,
    [{ command: t, data: [result] }]. *)
Theorem dispatch_registered c a t (handler : Handler) s res h' :
  map !! c = Some handler ->
  handler a (host s) = (Returned res, h') ->
  t <> "" ->
  onDidReceiveMessage map {| command := c; data := Some a; callback := Some t |} s
  = (Returned VUndefined,
     {| host := h';
        invoked := (c, a) :: invoked s;
        posted := {| command := t; data := Some [res]; callback := None |}
                    :: posted s |}).
Proof.
  intros Hmap Hcall Ht. unfold onDidReceiveMessage. cbn [command data callback default id].
  rewrite Hmap, Hcall. rewrite (truthy_nonempty t Ht). reflexivity.
Qed.

(** C3: for a command that is not registered the listener throws an error
    whose text ends with the command name, and leaves the panel as it was:
    no handler is called and nothing is posted, with or without a callback
    token. *)
Theorem dispatch_unregistered c d cb s :
  (map !! c : option Handler) = None ->
  onDidReceiveMessage map {| command := c; data := d; callback := cb |} s
  = (Thrown (not_found c), s)
  /\ not_found c = "找不到命令 " +:+ c
  /\ (forall c', not_found c' = not_found c -> c' = c).
Proof.
  intros Hmap. unfold onDidReceiveMessage. cbn [command data callback].
  rewrite Hmap. split; [reflexivity|]. split; [reflexivity|].
  intros c' He. now apply not_found_inj.
Qed.

(** C7: without a callback token, or with the empty one, the listener still
    calls the registered handler exactly once and posts nothing, however
    the handler ends. *)
Theorem dispatch_without_callback c d cb (handler : Handler) s :
  map !! c = Some handler ->
  cb = None \/ cb = Some "" ->
  let s' := snd (onDidReceiveMessage map {| command := c; data := d; callback := cb |} s) in
  invoked s' = (c, default [] d) :: invoked s
  /\ host s' = snd (handler (default [] d) (host s))
  /\ posted s' = posted s.
Proof.
  intros Hmap Hcb. unfold onDidReceiveMessage. cbn [command data callback].
  rewrite Hmap. destruct (handler (default [] d) (host s)) as [[res|e|] h].
  - destruct Hcb as [-> | ->]; cbn; auto.
  - cbn; auto.
  - cbn; auto.
Qed.

(** C10, as the code has it: a message without [data] is handled exactly
    as one whose [data] is the empty array.  The handler is called once,
    with no argument; if it returns, then, the token being non-empty,
    [{ command: t, data: [result] }] is posted; if it throws or does not
    settle, the listener ends the same way and nothing is posted. *)
Theorem dispatch_without_data c cb (handler : Handler) s :
  map !! c = Some handler ->
  let without := onDidReceiveMessage map {| command := c; data := None; callback := cb |} s in
  without = onDidReceiveMessage map {| command := c; data := Some []; callback := cb |} s
  /\ invoked (snd without) = (c, []) :: invoked s
  /\ host (snd without) = snd (handler [] (host s))
  /\ (forall res t,
        fst (handler [] (host s)) = Returned res -> cb = Some t -> t <> "" ->
        fst without = Returned VUndefined
        /\ posted (snd without)
           = {| command := t; data := Some [res]; callback := None |} :: posted s)
  /\ ((forall res, fst (handler [] (host s)) <> Returned res) ->
      fst without = fst (handler [] (host s)) /\ posted (snd without) = posted s).
Proof.
  intros Hmap. cbn zeta. split; [reflexivity|].
  unfold onDidReceiveMessage. cbn [command data callback default id].
  rewrite Hmap. destruct (handler [] (host s)) as [outcome h'] eqn:Hcall. cbn [fst snd].
  split; [|split; [|split]].
  - destruct outcome; [destruct (truthy cb)|..]; reflexivity.
  - destruct outcome; [destruct (truthy cb)|..]; reflexivity.
  - intros res t -> -> Ht. rewrite (truthy_nonempty t Ht). split; reflexivity.
  - intros Hfail. destruct outcome as [res| |]; [now destruct (Hfail res)|..];
      split; reflexivity.
Qed.

End Dispatcher.

Lemma dispatch_registered_witness :
  Examples.registry !! "selectPath" = Some selectPath
  /\ selectPath [VStr "Location"] (host (Examples.panel [Picked "/srv/app"]))
     = (Returned (VStr "/srv/app"),
        {| notifications := [VStr "Location"]; dialogs := [] |})
  /\ "7_0.25" <> ""
  /\ onDidReceiveMessage Examples.registry
       {| command := "selectPath"; data := Some [VStr "Location"];
          callback := Some "7_0.25" |}
       (Examples.panel [Picked "/srv/app"])
     = (Returned VUndefined,
        {| host := {| notifications := [VStr "Location"]; dialogs := [] |};
           invoked := [("selectPath", [VStr "Location"])];
           posted := [{| command := "7_0.25"; data := Some [VStr "/srv/app"];
                         callback := None |}] |}).
Proof.
  split; [reflexivity|]. split; [reflexivity|]. split; [discriminate|].
  apply (dispatch_registered Examples.registry "selectPath" [VStr "Location"] "7_0.25"
           selectPath (Examples.panel [Picked "/srv/app"]));
    [reflexivity | reflexivity | discriminate].
Defined.

(** C2 fails as stated for the empty token: [hello] is registered and
    returns, it is called with the argument of the message, and nothing is
    posted. *)
Lemma dispatch_empty_token :
  let message := {| command := "hello"; data := Some [VStr "world"];
                    callback := Some "" |} in
  Examples.registry !! "hello" = Some hello
  /\ fst (hello [VStr "world"] (host (Examples.panel []))) = Returned VUndefined
  /\ invoked (snd (onDidReceiveMessage Examples.registry message (Examples.panel [])))
     = [("hello", [VStr "world"])]
  /\ posted (snd (onDidReceiveMessage Examples.registry message (Examples.panel [])))
     = [].
Proof. repeat split. Qed.

Lemma dispatch_unregistered_witness :
  Examples.registry !! "getState" = None
  /\ onDidReceiveMessage Examples.registry
       {| command := "getState"; data := Some [VStr "theme"];
          callback := Some "7_0.25" |}
       (Examples.panel [])
     = (Thrown "找不到命令 getState", Examples.panel []).
Proof.
  split; [reflexivity|].
  apply (dispatch_unregistered Examples.registry "getState" (Some [VStr "theme"])
           (Some "7_0.25") (Examples.panel [])).
  reflexivity.
Defined.

Lemma dispatch_without_callback_witness :
  Examples.registry !! "hello" = Some hello
  /\ posted (snd (onDidReceiveMessage Examples.registry
                    {| command := "hello"; data := Some [VStr "world"];
                       callback := Some "" |} (Examples.panel [])))
     = [].
Proof.
  split; [reflexivity|].
  apply (dispatch_without_callback Examples.registry "hello" (Some [VStr "world"])
           (Some "") hello (Examples.panel [])); [reflexivity | now right].
Defined.

Lemma dispatch_without_data_witness :
  let without := onDidReceiveMessage Examples.registry
                   {| command := "selectPath"; data := None; callback := Some "7_0.25" |}
                   (Examples.panel [Dismissed]) in
  Examples.registry !! "selectPath" = Some selectPath
  /\ invoked (snd without) = [("selectPath", [])]
  /\ fst without = Returned VUndefined
  /\ posted (snd without)
     = [{| command := "7_0.25"; data := Some [VNull]; callback := None |}].
Proof.
  intros without.
  assert (Hmap : Examples.registry !! "selectPath" = Some selectPath) by reflexivity.
  destruct (dispatch_without_data Examples.registry "selectPath" (Some "7_0.25")
              selectPath (Examples.panel [Dismissed]) Hmap)
    as (_ & Hcall & _ & Hposts & _).
  destruct (Hposts VNull "7_0.25" eq_refl eq_refl) as [Hend Hposted]; [discriminate|].
  split; [exact Hmap|]. split; [exact Hcall|]. split; [exact Hend | exact Hposted].
Defined.

(** C10 fails as stated for [createProject]: it is registered, and called
    with no argument it throws on reading [data.location]; the listener
    throws with it and posts nothing, though the token is not empty. *)
Lemma createProject_without_data :
  let createProject := Project.handler Scenes.runtime (Scenes.desk Scenes.taken [] []) in
  let message := {| command := "createProject"; data := None;
                    callback := Some "7_0.25" |} in
  handlers createProject !! "createProject" = Some createProject
  /\ createProject [] (host (Examples.panel []))
     = (Thrown "TypeError", host (Examples.panel []))
  /\ onDidReceiveMessage (handlers createProject) message (Examples.panel [])
     = (Thrown "TypeError",
        {| host := host (Examples.panel []);
           invoked := [("createProject", [])];
           posted := [] |}).
Proof. repeat split. Qed.

End PanelFacts.

(** ** The two sides together *)
Section BridgeFacts.
Import Webview Panel.

Lemma copy_item_serializable v : JSON.serializable v = true -> JSON.copy_item v = v.
Proof.
  intros Hser. destruct v; try discriminate; try reflexivity;
    apply (copy_serializable _ Hser).
Qed.

(** C1: with the host channel there and the command registered, the request
    [invoke] posts, handled by the listener of the panel, yields a response
    that settles the promise [invoke] returned with the value the handler
    returned, whatever JSON-serializable value that is. *)
Theorem round_trip page ops (registry : gmap string Handler) o now random
    (handler : Handler) s res h' :
  has_acquireVsCodeApi page = true ->
  registry !! o_command o = Some handler ->
  handler (default [] (option_map (List.map JSON.copy_item) (o_args o))) (host s)
  = (Returned res, h') ->
  JSON.serializable res = true ->
  let w := run ops (construct page) in
  let '(p, w1) := invoke o now random w in
  exists request response s1,
    outbox w1 = request :: outbox w
    /\ settled w1 !! p = None
    /\ onDidReceiveMessage registry (wire request) s = (Returned VUndefined, s1)
    /\ invoked s1
       = (o_command o, default [] (option_map (List.map JSON.copy_item) (o_args o)))
           :: invoked s
    /\ posted s1 = response :: posted s
    /\ settled (dispatchEvent (wire response) w1) !! p = Some res.
Proof.
  intros Hpage Hreg Hcall Hser w.
  pose proof (run_consistent ops _ (construct_consistent page)) as Hw. fold w in Hw.
  pose proof (run_global ops (construct page)) as Hg. fold w in Hg.
  rewrite construct_global in Hg.
  rewrite Hpage in Hg.
  pose proof (run_field page ops) as Hf. fold w in Hf. rewrite Hpage in Hf.
  pose proof (invoke_consistent o now random w Hw) as Hw1.
  rewrite invoke_request in Hw1 |- * by assumption. cbn [snd] in Hw1.
  destruct (make_id_nonempty now random) as (c & rest & Hid).
  set (request := {| command := o_command o; data := o_args o;
                     callback := Some (make_id now random) |}) in *.
  set (waiter := {| l_id := make_id now random; l_promise := promises w |}) in *.
  set (w1 := postMessage request (addEventListener waiter (snd (new_promise w)))) in *.
  set (response := {| command := make_id now random; data := Some [res];
                      callback := None |}).
  assert (Hin : waiter ∈ listeners w1).
  { unfold w1. rewrite postMessage_listeners. cbn. apply elem_of_app. right. left. }
  pose proof (attached_pending _ Hw1) as Hatt. rewrite Forall_forall in Hatt.
  destruct (Hatt waiter Hin) as [_ Hpending].
  eexists request, response, _.
  split; [|split; [exact Hpending|split; [|split; [|split]]]].
  - unfold w1, postMessage. cbn. rewrite Hf. reflexivity.
  - unfold onDidReceiveMessage, wire, request. cbn [command data callback].
    rewrite Hreg, Hcall, Hid. cbn [truthy]. reflexivity.
  - reflexivity.
  - unfold response. rewrite Hid. reflexivity.
  - destruct (dispatchEvent_match (wire response) [res] w1 waiter Hw1 Hin) as [Hs _].
    + reflexivity.
    + cbn. now rewrite copy_item_serializable.
    + exact Hs.
Qed.

Lemma round_trip_witness :
  has_acquireVsCodeApi Examples.vscode_page = true
  /\ Examples.registry !! "selectPath" = Some selectPath
  /\ JSON.serializable VNull = true
  /\ let '(p, w1) := invoke Examples.select_path 7 "0.25"
                        (construct Examples.vscode_page) in
     exists request response s1,
       outbox w1 = [request]
       /\ settled w1 !! p = None
       /\ onDidReceiveMessage Examples.registry (wire request)
            (Examples.panel [Dismissed]) = (Returned VUndefined, s1)
       /\ invoked s1 = [("selectPath", [VStr "Location"])]
       /\ posted s1 = [response]
       /\ settled (dispatchEvent (wire response) w1) !! p = Some VNull.
Proof.
  split; [reflexivity|]. split; [reflexivity|]. split; [reflexivity|].
  apply (round_trip Examples.vscode_page [] Examples.registry Examples.select_path 7 "0.25"
           selectPath (Examples.panel [Dismissed]) VNull
           {| notifications := [VStr "Location"]; dialogs := [] |});
    reflexivity.
Defined.

(** The values a truthiness test would lose come back as they are: a
    handler registered under [probe] that returns [0], the empty string, or
    a nested container. *)
Example round_trip_falsy_results :
  Forall (fun res =>
    let registry : gmap string Handler := {[ "probe" := fun _ h => (Returned res, h) ]} in
    let o := {| o_command := "probe"; o_default := VStr "lost"; o_args := None |} in
    let '(p, w1) := invoke o 7 "0.25" (construct Examples.vscode_page) in
    exists request response s1,
      outbox w1 = [request]
      /\ settled w1 !! p = None
      /\ onDidReceiveMessage registry (wire request) (Examples.panel [])
         = (Returned VUndefined, s1)
      /\ invoked s1 = [("probe", [])]
      /\ posted s1 = [response]
      /\ settled (dispatchEvent (wire response) w1) !! p = Some res)
    [VNum 0; VStr ""; VNull; VBool false;
     VObj [("path", VArr [VStr "/srv"; VObj []]); ("depth", VNum (-1))]].
Proof.
  repeat (apply List.Forall_cons;
          [vm_compute; eexists _, _, _; repeat split; reflexivity|]).
  apply List.Forall_nil.
Qed.

End BridgeFacts.

(** ** More on the wrapper: messages that match nothing, promises, the store *)
Section WebviewMore.
Import Webview Trace.

Lemma fold_unmatched m ls w :
  Forall (fun l => command m <> l_id l) ls ->
  fold_left (fun w' l => listener l m w') ls w = w.
Proof.
  induction 1 as [|l ls Hl _ IH]; [reflexivity|].
  cbn [fold_left]. now rewrite listener_skip.
Qed.

(** X1: a message whose command is the token of no attached listener
    changes nothing: no promise is settled, no listener detached. *)
Theorem unmatched_message_ignored m w :
  command m ∉ pending_ids w -> dispatchEvent m w = w.
Proof.
  intros Hnot. apply fold_unmatched. apply Forall_forall. intros l Hl He.
  apply Hnot. unfold pending_ids. rewrite He.
  apply list_elem_of_In, in_map, list_elem_of_In, Hl.
Qed.

Lemma unmatched_message_ignored_witness :
  let w := run [DoInvoke Examples.select_path 7 "0.25"] (construct Examples.vscode_page) in
  let m := {| command := "hello"; data := Some [VStr "world"]; callback := None |} in
  dispatchEvent m w = w.
Proof.
  intros w m. apply (unmatched_message_ignored m w).
  cbn. intros Hin. apply list_elem_of_singleton in Hin. discriminate.
Defined.

Lemma matched_all_detached m xs w :
  data m = Some xs -> command m ∉ pending_ids (dispatchEvent m w).
Proof.
  intros Hd Hin. unfold pending_ids, dispatchEvent in Hin.
  rewrite (fold_listeners m xs Hd) in Hin.
  apply list_elem_of_In, in_map_iff in Hin as (l & He & Hl).
  apply list_elem_of_In, list_elem_of_filter in Hl as [Hnot Hl].
  apply Hnot, elem_of_fired. eauto.
Qed.

(** X3: a response delivered a second time changes nothing: the listener
    it settled is gone, and the promise keeps its first value. *)
Theorem duplicate_response_ignored m w :
  dispatchEvent m (dispatchEvent m w) = dispatchEvent m w.
Proof.
  destruct (data m) as [xs|] eqn:Hd.
  - apply unmatched_message_ignored. now apply (matched_all_detached m xs).
  - unfold dispatchEvent at 1. now rewrite fold_without_data.
Qed.

(** X2: a message that bears the token of an attached listener but has no
    [data] leaves the call as it was, pending and attached (the listener
    throws on [data.data[0]] before it resolves); one whose [data] is the
    empty array settles the call with [undefined]. *)
Theorem response_without_result page ops (b : Listener) (m : Message) :
  let w := run ops (construct page) in
  b ∈ listeners w -> command m = l_id b ->
  (data m = None -> dispatchEvent m w = w /\ settled w !! l_promise b = None)
  /\ (data m = Some [] ->
      settled (dispatchEvent m w) !! l_promise b = Some VUndefined
      /\ (b ∉ listeners (dispatchEvent m w))).
Proof.
  intros w Hb Hm.
  pose proof (run_consistent ops _ (construct_consistent page)) as Hw. fold w in Hw.
  split.
  - intros Hd. split; [unfold dispatchEvent; now rewrite fold_without_data|].
    pose proof (attached_pending _ Hw) as Hatt. rewrite Forall_forall in Hatt.
    apply (Hatt b Hb).
  - intros Hd. apply (dispatchEvent_match m [] w b Hw Hb Hm Hd).
Qed.

Lemma response_without_result_witness :
  let w := run [DoInvoke Examples.select_path 7 "0.25"] (construct Examples.vscode_page) in
  let b := {| l_id := "7_0.25"; l_promise := 0 |} in
  listeners w = [b]
  /\ dispatchEvent {| command := "7_0.25"; data := None; callback := None |} w = w
  /\ settled (dispatchEvent {| command := "7_0.25"; data := Some []; callback := None |} w)
       !! 0 = Some VUndefined.
Proof.
  intros w b. split; [reflexivity|].
  destruct (response_without_result Examples.vscode_page
              [DoInvoke Examples.select_path 7 "0.25"] b
              {| command := "7_0.25"; data := None; callback := None |}) as [H1 _].
  { apply list_elem_of_In. cbn. auto. }
  { reflexivity. }
  destruct (response_without_result Examples.vscode_page
              [DoInvoke Examples.select_path 7 "0.25"] b
              {| command := "7_0.25"; data := Some []; callback := None |}) as [_ H2].
  { apply list_elem_of_In. cbn. auto. }
  { reflexivity. }
  split; [apply H1; reflexivity | apply H2; reflexivity].
Defined.

(** *** Promises settle once *)

Lemma resolve_mono p v w q old :
  settled w !! q = Some old -> settled (resolve p v w) !! q = Some old.
Proof. intros Hq. now rewrite resolve_settled, Hq. Qed.

Lemma postMessage_settled m w : settled (postMessage m w) = settled w.
Proof. unfold postMessage. now destruct (vsCodeApi w) as [[]|]. Qed.

Lemma invoke_mono o now random w q old :
  settled w !! q = Some old -> settled (snd (invoke o now random w)) !! q = Some old.
Proof.
  intros Hq. destruct (acquire_defined w) eqn:Hd.
  - rewrite invoke_request by assumption. cbn [snd]. now rewrite postMessage_settled.
  - rewrite invoke_degraded by assumption. cbn [snd]. now apply resolve_mono.
Qed.

Lemma step_mono w op q old :
  settled w !! q = Some old -> settled (step w op) !! q = Some old.
Proof.
  intros Hq. destruct op; cbn [step].
  - now rewrite postMessage_settled.
  - now apply invoke_mono.
  - unfold getState. destruct (vsCodeApi w) as [[]|].
    + pose proof (invoke_mono {| o_command := "getState"; o_default := VUndefined;
                                 o_args := Some [VStr key] |} now random w q old Hq) as Hi.
      now destruct (invoke _ _ _ _).
    + destruct (localStorage w !! key) as [[|c s]|]; try destruct (JSON.parse _); exact Hq.
  - unfold setState. destruct (vsCodeApi w) as [[]|].
    + pose proof (invoke_mono {| o_command := "setState"; o_default := VUndefined;
                                 o_args := Some [VStr key; newState] |} now random w q old Hq)
        as Hi.
      now destruct (invoke _ _ _ _).
    + exact Hq.
  - now apply dispatchEvent_settled_mono.
Qed.

(** X4: a promise that is settled keeps its value whatever happens next:
    later responses, even under the same token, and later calls do not
    change it. *)
Theorem settled_for_good ops w p v :
  settled w !! p = Some v -> settled (run ops w) !! p = Some v.
Proof.
  unfold run. revert w. induction ops as [|op ops IH]; intros w Hp; [exact Hp|].
  cbn [fold_left]. apply IH, step_mono, Hp.
Qed.

Lemma settled_for_good_witness :
  let w := run [DoInvoke Examples.select_path 7 "0.25";
                Receive {| command := "7_0.25"; data := Some [VStr "/srv/app"];
                           callback := None |}]
             (construct Examples.vscode_page) in
  settled w !! 0 = Some (VStr "/srv/app")
  /\ settled (run [DoInvoke Examples.say_hello 7 "0.25";
                   Receive {| command := "7_0.25"; data := Some [VNull];
                              callback := None |}] w) !! 0
     = Some (VStr "/srv/app").
Proof.
  intros w. split; [reflexivity|].
  apply (settled_for_good _ w 0 (VStr "/srv/app")). reflexivity.
Defined.

(** *** Calls that are never answered *)

Lemma invoke_keeps_listeners o now random w a :
  a ∈ listeners w -> a ∈ listeners (snd (invoke o now random w)).
Proof.
  intros Ha. destruct (acquire_defined w) eqn:Hd.
  - rewrite invoke_request by assumption. cbn [snd]. rewrite postMessage_listeners.
    cbn. apply elem_of_app. now left.
  - rewrite invoke_degraded by assumption. cbn [snd]. now rewrite resolve_listeners.
Qed.

Lemma step_keeps_listener w op a :
  consistent w -> a ∈ listeners w -> ~ answers_to (l_id a) op -> a ∈ listeners (step w op).
Proof.
  intros Hw Ha Hop. destruct op; cbn [step].
  - now rewrite postMessage_listeners.
  - now apply invoke_keeps_listeners.
  - unfold getState. destruct (vsCodeApi w) as [[]|].
    + pose proof (invoke_keeps_listeners {| o_command := "getState"; o_default := VUndefined;
                    o_args := Some [VStr key] |} now random w a Ha) as Hi.
      now destruct (invoke _ _ _ _).
    + destruct (localStorage w !! key) as [[|c s]|]; try destruct (JSON.parse _); exact Ha.
  - unfold setState. destruct (vsCodeApi w) as [[]|].
    + pose proof (invoke_keeps_listeners {| o_command := "setState"; o_default := VUndefined;
                    o_args := Some [VStr key; newState] |} now random w a Ha) as Hi.
      now destruct (invoke _ _ _ _).
    + exact Ha.
  - apply dispatchEvent_other; [assumption | assumption | exact Hop].
Qed.

Lemma run_keeps_listener ops w a :
  consistent w -> a ∈ listeners w -> Forall (fun op => ~ answers_to (l_id a) op) ops ->
  a ∈ listeners (run ops w) /\ settled (run ops w) !! l_promise a = None.
Proof.
  unfold run. revert w. induction ops as [|op ops IH]; intros w Hw Ha Hops.
  - split; [exact Ha|]. pose proof (attached_pending _ Hw) as Hatt.
    rewrite Forall_forall in Hatt. apply (Hatt a Ha).
  - apply Forall_cons in Hops as [Hop Hops]. cbn [fold_left].
    apply IH; [now apply step_consistent | now apply step_keeps_listener | exact Hops].
Qed.

(** X5: a call waits for ever when no response bears its token: whatever
    else the page does and receives, its listener stays attached and its
    promise pending. *)
Theorem pending_until_answered page before after (a : Listener) :
  let w := run before (construct page) in
  a ∈ listeners w ->
  Forall (fun op => ~ answers_to (l_id a) op) after ->
  a ∈ listeners (run after w) /\ settled (run after w) !! l_promise a = None.
Proof.
  intros w Ha Hafter. apply run_keeps_listener; [|assumption..].
  apply run_consistent, construct_consistent.
Qed.

Lemma pending_until_answered_witness :
  let w := run [DoInvoke Examples.select_path 7 "0.25"] (construct Examples.vscode_page) in
  let a := {| l_id := "7_0.25"; l_promise := 0 |} in
  let after := [Receive {| command := "hello"; data := Some [VStr "world"]; callback := None |};
                DoInvoke Examples.say_hello 9 "0.5";
                Receive {| command := "9_0.5"; data := Some [VNull]; callback := None |}] in
  (a ∈ listeners (run after w)) /\ settled (run after w) !! 0 = None.
Proof.
  intros w a after.
  apply (pending_until_answered Examples.vscode_page
           [DoInvoke Examples.select_path 7 "0.25"] after a).
  - apply list_elem_of_In. cbn. auto.
  - repeat constructor; cbn; try tauto; discriminate.
Defined.

(** X7: listeners that wait under the same token are all settled by one
    response, with the same value, and all detached. *)
Theorem shared_token_shared_answer page ops (a b : Listener) (m : Message) xs :
  let w := run ops (construct page) in
  a ∈ listeners w -> b ∈ listeners w -> l_id a = l_id b ->
  command m = l_id a -> data m = Some xs ->
  settled (dispatchEvent m w) !! l_promise a = Some (nth 0 xs VUndefined)
  /\ settled (dispatchEvent m w) !! l_promise b = Some (nth 0 xs VUndefined)
  /\ (a ∉ listeners (dispatchEvent m w)) /\ (b ∉ listeners (dispatchEvent m w)).
Proof.
  intros w Ha Hb Hab Hm Hd.
  pose proof (run_consistent ops _ (construct_consistent page)) as Hw. fold w in Hw.
  destruct (dispatchEvent_match m xs w a Hw Ha Hm Hd) as [Hsa Hna].
  destruct (dispatchEvent_match m xs w b Hw Hb ltac:(congruence) Hd) as [Hsb Hnb].
  auto.
Qed.

Lemma shared_token_shared_answer_witness :
  let w := run [DoInvoke Examples.select_path 7 "0.25"; DoInvoke Examples.say_hello 7 "0.25"]
             (construct Examples.vscode_page) in
  let m := {| command := "7_0.25"; data := Some [VStr "/srv/app"]; callback := None |} in
  settled (dispatchEvent m w) !! 0 = Some (VStr "/srv/app")
  /\ settled (dispatchEvent m w) !! 1 = Some (VStr "/srv/app")
  /\ listeners (dispatchEvent m w) = [].
Proof.
  intros w m.
  destruct (shared_token_shared_answer Examples.vscode_page
              [DoInvoke Examples.select_path 7 "0.25"; DoInvoke Examples.say_hello 7 "0.25"]
              {| l_id := "7_0.25"; l_promise := 0 |} {| l_id := "7_0.25"; l_promise := 1 |}
              m [VStr "/srv/app"]) as (H0 & H1 & _).
  - apply list_elem_of_In. cbn. auto.
  - apply list_elem_of_In. cbn. auto.
  - reflexivity.
  - reflexivity.
  - reflexivity.
  - split; [exact H0|]. split; [exact H1 | reflexivity].
Defined.

(** *** A page without the host channel *)

Lemma browser_step w op :
  consistent w -> acquire_defined w = false -> listeners w = [] ->
  listeners (step w op) = []
  /\ outbox (step w op) = outbox w
  /\ console (step w op)
     = match op with DoPostMessage m => m :: console w | _ => console w end.
Proof.
  intros Hw Hd Hl. pose proof (memo_field _ Hw) as Hf. rewrite Hd in Hf.
  assert (Hinv : forall o now random,
            let w' := snd (invoke o now random w) in
            listeners w' = [] /\ outbox w' = outbox w /\ console w' = console w).
  { intros o now random. rewrite invoke_degraded by assumption. cbn [snd].
    destruct (resolve_same_page (promises w) (o_default o) (snd (new_promise w)))
      as (_ & _ & _ & _ & Ho & Hc & _).
    rewrite resolve_listeners, Ho, Hc. cbn. auto. }
  destruct op; cbn [step].
  - unfold postMessage. rewrite Hf. cbn. auto.
  - apply Hinv.
  - unfold getState. rewrite Hf.
    destruct (localStorage w !! key) as [[|c s]|]; try destruct (JSON.parse _); cbn; auto.
  - unfold setState. rewrite Hf. cbn. auto.
  - unfold dispatchEvent. rewrite Hl. cbn. auto.
Qed.

Lemma browser_run ops w :
  consistent w -> acquire_defined w = false -> listeners w = [] ->
  listeners (run ops w) = []
  /\ outbox (run ops w) = outbox w
  /\ console (run ops w) = rev (posted_by ops) ++ console w.
Proof.
  unfold run. revert w. induction ops as [|op ops IH]; intros w Hw Hd Hl; [auto|].
  cbn [fold_left]. destruct (browser_step w op Hw Hd Hl) as (Hl' & Ho' & Hc').
  destruct (IH (step w op)) as (Hl'' & Ho'' & Hc'');
    [now apply step_consistent | now rewrite step_global | assumption |].
  split; [assumption|]. split; [congruence|].
  rewrite Hc'', Hc'. unfold posted_by. cbn [flat_map].
  destruct op; cbn [app]; try reflexivity.
  cbn [rev]. now rewrite <- app_assoc.
Qed.

(** X6: on a page without [acquireVsCodeApi] nothing ever reaches the host
    channel and no listener is ever attached; what is given to
    [postMessage] is logged to the console, in order, and nothing else is. *)
Theorem browser_never_posts page ops :
  has_acquireVsCodeApi page = false ->
  outbox (run ops (construct page)) = []
  /\ listeners (run ops (construct page)) = []
  /\ console (run ops (construct page)) = rev (posted_by ops).
Proof.
  intros Hpage.
  destruct (browser_run ops (construct page)) as (Hl & Ho & Hc).
  - apply construct_consistent.
  - now rewrite construct_global.
  - unfold construct. cbn. now rewrite Hpage.
  - split; [rewrite Ho; unfold construct; cbn; now rewrite Hpage|].
    split; [exact Hl|]. rewrite Hc. unfold construct. cbn. rewrite Hpage. cbn.
    now rewrite app_nil_r.
Qed.

Lemma browser_never_posts_witness :
  let m := {| command := "hello"; data := Some [VStr "world"]; callback := None |} in
  let w := run [DoInvoke Examples.select_path 7 "0.25"; DoPostMessage m;
                DoSetState "theme" (VStr "dark") 8 "0.5"]
             (construct Examples.browser_page) in
  outbox w = [] /\ listeners w = [] /\ console w = [m].
Proof.
  intros m w.
  apply (browser_never_posts Examples.browser_page
           [DoInvoke Examples.select_path 7 "0.25"; DoPostMessage m;
            DoSetState "theme" (VStr "dark") 8 "0.5"]).
  reflexivity.
Defined.

(** *** The local store *)

Lemma postMessage_field m w : vsCodeApi (postMessage m w) = vsCodeApi w.
Proof. unfold postMessage. now destruct (vsCodeApi w) as [[]|] eqn:E. Qed.

Lemma postMessage_storage m w : localStorage (postMessage m w) = localStorage w.
Proof. unfold postMessage. now destruct (vsCodeApi w) as [[]|]. Qed.

Lemma invoke_storage o now random w :
  localStorage (snd (invoke o now random w)) = localStorage w.
Proof.
  destruct (acquire_defined w) eqn:Hd.
  - rewrite invoke_request by assumption. cbn [snd]. now rewrite postMessage_storage.
  - rewrite invoke_degraded by assumption. cbn [snd].
    now destruct (resolve_same_page (promises w) (o_default o) (snd (new_promise w)))
      as (_ & _ & _ & _ & _ & _ & ->).
Qed.

Lemma getState_channel key now random w :
  vsCodeApi w = Some HostChannel ->
  getState key now random w
  = (Later (fst (invoke {| o_command := "getState"; o_default := VUndefined;
                           o_args := Some [VStr key] |} now random w)),
     snd (invoke {| o_command := "getState"; o_default := VUndefined;
                    o_args := Some [VStr key] |} now random w)).
Proof. intros Hf. unfold getState. rewrite Hf. now destruct (invoke _ _ _ _). Qed.

Lemma setState_channel key v now random w :
  vsCodeApi w = Some HostChannel ->
  setState key v now random w
  = (Later (fst (invoke {| o_command := "setState"; o_default := VUndefined;
                           o_args := Some [VStr key; v] |} now random w)),
     snd (invoke {| o_command := "setState"; o_default := VUndefined;
                    o_args := Some [VStr key; v] |} now random w)).
Proof. intros Hf. unfold setState. rewrite Hf. now destruct (invoke _ _ _ _). Qed.

Lemma getState_fallback_state key now random w :
  vsCodeApi w = None -> snd (getState key now random w) = w.
Proof.
  intros Hf. unfold getState. rewrite Hf.
  destruct (localStorage w !! key) as [[|c s]|]; try destruct (JSON.parse _); reflexivity.
Qed.

Lemma invoke_field o now random w : vsCodeApi (snd (invoke o now random w)) = vsCodeApi w.
Proof.
  destruct (acquire_defined w) eqn:Hd.
  - rewrite invoke_request by assumption. cbn [snd]. now rewrite postMessage_field.
  - rewrite invoke_degraded by assumption. cbn [snd].
    now destruct (resolve_same_page (promises w) (o_default o) (snd (new_promise w)))
      as (_ & _ & -> & _).
Qed.

Lemma step_field w op : vsCodeApi (step w op) = vsCodeApi w.
Proof.
  destruct op; cbn [step].
  - apply postMessage_field.
  - apply invoke_field.
  - destruct (vsCodeApi w) as [[]|] eqn:E.
    + rewrite getState_channel by assumption. cbn [snd]. now rewrite invoke_field.
    + now rewrite getState_fallback_state.
  - destruct (vsCodeApi w) as [[]|] eqn:E.
    + rewrite setState_channel by assumption. cbn [snd]. now rewrite invoke_field.
    + unfold setState. now rewrite E.
  - now destruct (dispatchEvent_same_page m w) as (_ & _ & -> & _).
Qed.

Lemma step_storage w op key :
  key ∉ written_by [op] \/ vsCodeApi w = Some HostChannel ->
  localStorage (step w op) !! key = localStorage w !! key.
Proof.
  intros Hkey. destruct op; cbn [step].
  - now rewrite postMessage_storage.
  - now rewrite invoke_storage.
  - destruct (vsCodeApi w) as [[]|] eqn:E.
    + rewrite getState_channel by assumption. cbn [snd]. now rewrite invoke_storage.
    + now rewrite getState_fallback_state.
  - destruct (vsCodeApi w) as [[]|] eqn:E.
    + rewrite setState_channel by assumption. cbn [snd]. now rewrite invoke_storage.
    + destruct Hkey as [Hkey|Hkey]; [|discriminate]. cbn in Hkey.
      unfold setState. rewrite E. cbn. rewrite lookup_insert_ne; [reflexivity|].
      intros ->. apply Hkey. left.
  - now destruct (dispatchEvent_same_page m w) as (_ & _ & _ & _ & _ & _ & ->).
Qed.

Lemma run_storage ops w key :
  key ∉ written_by ops \/ vsCodeApi w = Some HostChannel ->
  localStorage (run ops w) !! key = localStorage w !! key.
Proof.
  unfold run. revert w. induction ops as [|op ops IH]; intros w Hkey; [reflexivity|].
  cbn [fold_left]. rewrite IH.
  - apply step_storage. destruct Hkey as [Hkey|Hkey]; [left|now right].
    intros Hin. apply Hkey. unfold written_by in *. cbn [flat_map] in *.
    rewrite app_nil_r in Hin. apply elem_of_app. now left.
  - rewrite step_field. destruct Hkey as [Hkey|Hkey]; [left|now right].
    intros Hin. apply Hkey. unfold written_by in *. cbn [flat_map].
    apply elem_of_app. now right.
Qed.

Lemma run_field_kept ops w : vsCodeApi w = None -> vsCodeApi (run ops w) = None.
Proof.
  unfold run. revert w. induction ops as [|op ops IH]; intros w Hw; [exact Hw|].
  cbn [fold_left]. apply IH. now rewrite step_field.
Qed.

(** X11: inside the editor the wrapper never writes the local store:
    whatever is called, [localStorage] holds what it held at load. *)
Theorem channel_page_keeps_store page ops :
  has_acquireVsCodeApi page = true ->
  localStorage (run ops (construct page)) = stored page.
Proof.
  intros Hpage. apply map_eq. intros key. rewrite run_storage.
  - unfold construct. cbn. now rewrite Hpage.
  - right. unfold construct. cbn. now rewrite Hpage.
Qed.

Lemma channel_page_keeps_store_witness :
  localStorage (run [DoSetState "theme" (VStr "dark") 7 "0.25"; DoGetState "theme" 8 "0.5"]
                  (construct Examples.vscode_page)) = ∅.
Proof.
  apply (channel_page_keeps_store Examples.vscode_page
           [DoSetState "theme" (VStr "dark") 7 "0.25"; DoGetState "theme" 8 "0.5"]).
  reflexivity.
Defined.

(** X12: without the host channel, a key that holds nothing at load and
    that no [setState] has written reads as [undefined]; so does a key
    that holds the empty text. *)
Theorem missing_key_reads_undefined page ops key now random :
  has_acquireVsCodeApi page = false ->
  stored page !! key = None \/ stored page !! key = Some "" ->
  key ∉ written_by ops ->
  let w := run ops (construct page) in
  getState key now random w = (Now (Returned VUndefined), w).
Proof.
  intros Hpage Hstored Hkey w.
  pose proof (run_field page ops) as Hf. fold w in Hf. rewrite Hpage in Hf.
  assert (Hs : localStorage w !! key = stored page !! key).
  { unfold w. rewrite run_storage by now left. unfold construct. cbn. now rewrite Hpage. }
  unfold getState. rewrite Hf, Hs. now destruct Hstored as [-> | ->].
Qed.

Lemma missing_key_reads_undefined_witness :
  let w := run [DoSetState "theme" (VStr "dark") 7 "0.25"] (construct Examples.browser_page) in
  getState "font" 8 "0.5" w = (Now (Returned VUndefined), w).
Proof.
  apply (missing_key_reads_undefined Examples.browser_page
           [DoSetState "theme" (VStr "dark") 7 "0.25"] "font" 8 "0.5").
  - reflexivity.
  - left. reflexivity.
  - cbn. intros Hin. apply list_elem_of_singleton in Hin. discriminate.
Defined.

Lemma fallback_setState page ops key v now random :
  has_acquireVsCodeApi page = false ->
  let w := run ops (construct page) in
  setState key v now random w
  = (Now (Returned VUndefined), setItem key (default "undefined" (JSON.stringify v)) w).
Proof.
  intros Hpage w. pose proof (run_field page ops) as Hf. fold w in Hf. rewrite Hpage in Hf.
  unfold setState. now rewrite Hf.
Qed.

Lemma fallback_getState_stored w key c s now random :
  vsCodeApi w = None -> localStorage w !! key = Some (String c s) ->
  getState key now random w
  = (match JSON.parse (String c s) with
     | Some v => Now (Returned v)
     | None => Now (Thrown "SyntaxError")
     end, w).
Proof.
  intros Hf Hs. unfold getState. rewrite Hf, Hs. now destruct (JSON.parse _).
Qed.

Lemma setItem_field key text w : vsCodeApi (setItem key text w) = vsCodeApi w.
Proof. reflexivity. Qed.

(** X9: without the host channel the last [setState] of a key wins: after
    [setState(k, v)] and then [setState(k, v')], whatever was done in
    between to other keys, [getState(k)] returns [v']. *)
Theorem last_write_wins page ops between key v v' t1 r1 t2 r2 t3 r3 :
  has_acquireVsCodeApi page = false ->
  JSON.serializable v' = true ->
  let w := run ops (construct page) in
  let w1 := snd (setState key v t1 r1 w) in
  let w2 := snd (setState key v' t2 r2 (run between w1)) in
  getState key t3 r3 w2 = (Now (Returned v'), w2).
Proof.
  intros Hpage Hser w w1 w2.
  pose proof (run_field page ops) as Hf. fold w in Hf. rewrite Hpage in Hf.
  assert (Hf1 : vsCodeApi w1 = None).
  { unfold w1, setState. now rewrite Hf. }
  assert (Hfb : vsCodeApi (run between w1) = None).
  { apply run_field_kept, Hf1. }
  destruct (stringify_serializable v' Hser) as [Hstr Hne].
  assert (Hw2 : w2 = setItem key (JSON.text v') (run between w1)).
  { unfold w2, setState. now rewrite Hfb, Hstr. }
  destruct (JSON.text v') as [|c s] eqn:Ht; [congruence|].
  rewrite (fallback_getState_stored w2 key c s).
  - now rewrite <- Ht, (parse_text v' Hser).
  - now rewrite Hw2.
  - rewrite Hw2. cbn. apply lookup_insert_eq.
Qed.

Lemma last_write_wins_witness :
  let w1 := snd (setState "theme" (VStr "dark") 1 "0.1" (construct Examples.browser_page)) in
  let w2 := snd (setState "theme" (VArr [VNum 0; VNull]) 2 "0.2"
                   (run [DoSetState "font" (VNum 12) 3 "0.3"] w1)) in
  getState "theme" 4 "0.4" w2 = (Now (Returned (VArr [VNum 0; VNull])), w2).
Proof.
  apply (last_write_wins Examples.browser_page [] [DoSetState "font" (VNum 12) 3 "0.3"]
           "theme" (VStr "dark") (VArr [VNum 0; VNull]) 1 "0.1" 2 "0.2" 4 "0.4");
    reflexivity.
Defined.

(** X10: without the host channel, writing one key does not change what
    another key reads as. *)
Theorem other_keys_untouched page ops key other v t1 r1 t2 r2 :
  has_acquireVsCodeApi page = false ->
  other <> key ->
  let w := run ops (construct page) in
  fst (getState other t2 r2 (snd (setState key v t1 r1 w)))
  = fst (getState other t2 r2 w).
Proof.
  intros Hpage Hne w.
  pose proof (run_field page ops) as Hf. fold w in Hf. rewrite Hpage in Hf.
  unfold setState, getState. rewrite Hf. cbn [snd setItem vsCodeApi localStorage].
  rewrite Hf, lookup_insert_ne by congruence.
  destruct (localStorage w !! other) as [[|c s]|]; try destruct (JSON.parse _); reflexivity.
Qed.

Lemma other_keys_untouched_witness :
  let w := run [DoSetState "font" (VNum 12) 3 "0.3"] (construct Examples.browser_page) in
  fst (getState "font" 5 "0.5" (snd (setState "theme" (VStr "dark") 4 "0.4" w)))
  = Now (Returned (VNum 12)).
Proof.
  intros w. unfold w.
  etrans; [apply (other_keys_untouched Examples.browser_page
                    [DoSetState "font" (VNum 12) 3 "0.3"]
                    "theme" "font" (VStr "dark") 4 "0.4" 5 "0.5");
           [reflexivity | discriminate] | reflexivity].
Defined.

(** X13: without the host channel, [setState(k, undefined)] stores the text
    [undefined], which is not JSON: the next [getState(k)] throws. *)
Theorem undefined_state_breaks_read page ops key t1 r1 t2 r2 :
  has_acquireVsCodeApi page = false ->
  let w := run ops (construct page) in
  let w1 := snd (setState key VUndefined t1 r1 w) in
  localStorage w1 !! key = Some "undefined"
  /\ getState key t2 r2 w1 = (Now (Thrown "SyntaxError"), w1).
Proof.
  intros Hpage w w1.
  pose proof (run_field page ops) as Hf. fold w in Hf. rewrite Hpage in Hf.
  assert (Hw1 : w1 = setItem key "undefined" w).
  { unfold w1, setState. now rewrite Hf. }
  assert (Hs : localStorage w1 !! key = Some "undefined").
  { rewrite Hw1. cbn. apply lookup_insert_eq. }
  split; [exact Hs|].
  rewrite (fallback_getState_stored w1 key "u" "ndefined"); [reflexivity | | exact Hs].
  now rewrite Hw1.
Qed.

Lemma undefined_state_breaks_read_witness :
  let w1 := snd (setState "theme" VUndefined 1 "0.1" (construct Examples.browser_page)) in
  getState "theme" 2 "0.2" w1 = (Now (Thrown "SyntaxError"), w1).
Proof.
  apply (undefined_state_breaks_read Examples.browser_page [] "theme" 1 "0.1" 2 "0.2").
  reflexivity.
Defined.

End WebviewMore.

(** ** More on the two sides together *)
Section BridgeMore.
Import Webview Panel.

(** The map holds the three commands of its [map.set] calls and no other. *)
Lemma handlers_lookup createProject name :
  (handlers createProject !! name : option Handler)
  = if String.eqb name "createProject" then Some createProject
    else if String.eqb name "selectPath" then Some selectPath
    else if String.eqb name "hello" then Some hello
    else None.
Proof.
  unfold handlers.
  destruct (String.eqb_spec name "createProject") as [->|H1]; [apply lookup_insert_eq|].
  rewrite lookup_insert_ne by congruence.
  destruct (String.eqb_spec name "selectPath") as [->|H2]; [apply lookup_insert_eq|].
  rewrite lookup_insert_ne by congruence.
  destruct (String.eqb_spec name "hello") as [->|H3]; [apply lookup_insert_eq|].
  rewrite lookup_insert_ne by congruence. apply lookup_empty.
Qed.

(** X8: inside the editor [getState] and [setState] send the commands
    [getState] and [setState], which the panel does not register: its
    listener throws on the request and posts no response, and the promise
    the caller awaits is left pending. *)
Theorem state_commands_unanswered page ops createProject key v now random s :
  has_acquireVsCodeApi page = true ->
  let w := run ops (construct page) in
  (exists request w1,
      getState key now random w = (Later (promises w), w1)
      /\ outbox w1 = request :: outbox w
      /\ command request = "getState"
      /\ onDidReceiveMessage (handlers createProject) (wire request) s
         = (Thrown (not_found "getState"), s)
      /\ settled w1 !! promises w = None)
  /\ (exists request w1,
      setState key v now random w = (Later (promises w), w1)
      /\ outbox w1 = request :: outbox w
      /\ command request = "setState"
      /\ onDidReceiveMessage (handlers createProject) (wire request) s
         = (Thrown (not_found "setState"), s)
      /\ settled w1 !! promises w = None).
Proof.
  intros Hpage w.
  pose proof (run_consistent ops _ (construct_consistent page)) as Hw. fold w in Hw.
  pose proof (run_global ops (construct page)) as Hg. fold w in Hg.
  rewrite construct_global, Hpage in Hg.
  pose proof (run_field page ops) as Hf. fold w in Hf. rewrite Hpage in Hf.
  pose proof (settled_fresh w Hw) as Hfresh.
  assert (Hinv : forall o,
    (handlers createProject !! o_command o : option Handler) = None ->
    exists request w1,
      invoke o now random w = (promises w, w1)
      /\ outbox w1 = request :: outbox w
      /\ command request = o_command o
      /\ onDidReceiveMessage (handlers createProject) (wire request) s
         = (Thrown (not_found (o_command o)), s)
      /\ settled w1 !! promises w = None).
  { intros o Ho. rewrite invoke_request by assumption.
    eexists _, _. split; [reflexivity|].
    split; [unfold postMessage; cbn; rewrite Hf; reflexivity|].
    split; [reflexivity|].
    split; [unfold onDidReceiveMessage; cbn [wire command]; now rewrite Ho|].
    rewrite postMessage_settled. exact Hfresh. }
  split.
  - destruct (Hinv {| o_command := "getState"; o_default := VUndefined;
                      o_args := Some [VStr key] |}) as (request & w1 & Hi & H);
      [now rewrite handlers_lookup|].
    exists request, w1. split; [|exact H]. unfold getState. now rewrite Hf, Hi.
  - destruct (Hinv {| o_command := "setState"; o_default := VUndefined;
                      o_args := Some [VStr key; v] |}) as (request & w1 & Hi & H);
      [now rewrite handlers_lookup|].
    exists request, w1. split; [|exact H]. unfold setState. now rewrite Hf, Hi.
Qed.

Lemma state_commands_unanswered_witness :
  fst (getState "theme" 7 "0.25" (construct Examples.vscode_page)) = Later 0
  /\ onDidReceiveMessage Examples.registry
       {| command := "getState"; data := Some [VStr "theme"]; callback := Some "7_0.25" |}
       (Examples.panel [])
     = (Thrown "找不到命令 getState", Examples.panel []).
Proof.
  destruct (state_commands_unanswered Examples.vscode_page [] Examples.createProject_waiting
              "theme" VNull 7 "0.25" (Examples.panel []) eq_refl)
    as [(request & w1 & Hg & Ho & Hc & Hd & Hs) _].
  cbn [run fold_left] in Hg. split; [now rewrite Hg | reflexivity].
Defined.

End BridgeMore.

(** ** More on the listener of the panel *)
Section PanelMore.
Import Panel.

(** X14: when the handler throws, or never returns, so does the listener:
    the handler has been called once with the arguments of the message, and
    no response is posted even though the message carried a callback
    token. *)
Theorem dispatch_handler_fails (map : gmap string Handler) c d cb (handler : Handler) s
    outcome h' :
  map !! c = Some handler ->
  handler (default [] d) (host s) = (outcome, h') ->
  (forall res, outcome <> Returned res) ->
  onDidReceiveMessage map {| command := c; data := d; callback := cb |} s
  = (outcome, {| host := h'; invoked := (c, default [] d) :: invoked s; posted := posted s |}).
Proof.
  intros Hmap Hcall Hfail. unfold onDidReceiveMessage. cbn [command data callback].
  rewrite Hmap, Hcall. destruct outcome as [res| |]; [now destruct (Hfail res) | reflexivity..].
Qed.

Lemma dispatch_handler_fails_witness :
  onDidReceiveMessage Examples.registry
    {| command := "selectPath"; data := Some [VStr "Location"]; callback := Some "7_0.25" |}
    (Examples.panel [])
  = (Unsettled,
     {| host := {| notifications := [VStr "Location"]; dialogs := [] |};
        invoked := [("selectPath", [VStr "Location"])];
        posted := [] |}).
Proof.
  apply (dispatch_handler_fails Examples.registry "selectPath" (Some [VStr "Location"])
           (Some "7_0.25") selectPath (Examples.panel []) Unsettled
           {| notifications := [VStr "Location"]; dialogs := [] |});
    [reflexivity | reflexivity | discriminate].
Defined.

End PanelMore.

(** ** The panel class *)
Section ExtensionFacts.
Import Extension.

Section Class.
Variable getUri : nat -> list string -> string.

Lemma start_tidy : tidy start.
Proof.
  split; cbn; try discriminate; try lia; try reflexivity;
    intros x Hx; now apply elem_of_nil in Hx.
Qed.

Lemma render_new s :
  currentPanel s = None ->
  let p := created s in
  currentPanel (render getUri s) = Some p
  /\ created (render getUri s) = S p
  /\ _disposables (render getUri s) = <[p := subscriptions p]> (_disposables s)
  /\ closed (render getUri s) = closed s
  /\ released (render getUri s) = released s
  /\ revealed (render getUri s) = revealed s
  /\ mail (render getUri s) = (p, greeting) :: mail s.
Proof.
  intros Hc p. unfold render. rewrite Hc. cbn.
  repeat split. rewrite !lookup_insert_eq. cbn. rewrite !insert_insert_eq. reflexivity.
Qed.

Lemma render_tidy s : tidy s -> tidy (render getUri s).
Proof.
  intros [Hcur Hoth Hclo Hrel Hmail].
  destruct (currentPanel s) as [p|] eqn:Hc.
  - unfold render. rewrite Hc. split; cbn; rewrite ?Hc; auto.
  - destruct (render_new s Hc) as (Hc' & Hn' & Hd' & Hcl' & Hr' & _ & Hm').
    split; rewrite ?Hc', ?Hn', ?Hd', ?Hcl', ?Hr', ?Hm'.
    + intros p [= <-]. split; [lia|]. split; [|split].
      * intros Hin. apply Hclo in Hin. lia.
      * intros Hin. apply Hrel, Hclo in Hin. cbn in Hin. lia.
      * apply lookup_insert_eq.
    + intros p Hp Hne. apply Hoth; [|discriminate].
      destruct (decide (p = created s)) as [->|]; [congruence | lia].
    + intros p Hin. apply Hclo in Hin. lia.
    + intros d Hin. now apply Hrel.
    + rewrite Hmail, seq_S, rev_app_distr. reflexivity.
Qed.

Lemma close_current s p :
  tidy s -> currentPanel s = Some p ->
  close p s = set_currentPanel None (set_closed p s).
Proof.
  intros Hs Hc. destruct (current_open s Hs p Hc) as (_ & Hncl & Hnrel & _).
  unfold close. rewrite bool_decide_eq_false_2 by assumption. cbn.
  now rewrite bool_decide_eq_false_2 by assumption.
Qed.

Lemma close_tidy s p : tidy s -> currentPanel s = Some p -> tidy (close p s).
Proof.
  intros Hs Hc. rewrite close_current by assumption.
  destruct Hs as [Hcur Hoth Hclo Hrel Hmail].
  split; cbn; try discriminate; auto.
  - intros q Hq _. destruct (decide (q = p)) as [->|Hne]; [left|].
    right. apply Hoth; [assumption | congruence].
  - intros q [->|Hin]%elem_of_cons; [apply (Hcur p Hc) | now apply Hclo].
  - intros d Hin. right. now apply Hrel.
Qed.

Lemma fold_release ds s :
  released (fold_left release ds s) = rev ds ++ released s
  /\ currentPanel (fold_left release ds s) = currentPanel s
  /\ _disposables (fold_left release ds s) = _disposables s
  /\ created (fold_left release ds s) = created s
  /\ closed (fold_left release ds s) = closed s
  /\ mail (fold_left release ds s) = mail s
  /\ revealed (fold_left release ds s) = revealed s.
Proof.
  revert s. induction ds as [|d ds IH]; intros s; cbn [fold_left]; [now repeat split|].
  destruct (IH (release s d)) as (-> & -> & -> & -> & -> & -> & ->).
  cbn. rewrite <- app_assoc. now repeat split.
Qed.

Lemma dispose_current s p :
  tidy s -> currentPanel s = Some p ->
  currentPanel (dispose p s) = None
  /\ released (dispose p s)
     = {| event := DidDispose; of_panel := p |}
         :: {| event := DidReceiveMessage; of_panel := p |} :: released s
  /\ _disposables (dispose p s) = <[p := []]> (_disposables s)
  /\ created (dispose p s) = created s
  /\ closed (dispose p s) = p :: closed s
  /\ mail (dispose p s) = mail s.
Proof.
  intros Hs Hc. destruct (current_open s Hs p Hc) as (_ & Hncl & Hnrel & Hd).
  unfold dispose, close. cbn [closed set_currentPanel released].
  rewrite bool_decide_eq_false_2 by assumption. cbn [set_closed released].
  rewrite bool_decide_eq_false_2 by assumption. cbn [snd dispose_unbound].
  cbn [set_currentPanel set_closed _disposables]. rewrite Hd. cbn [default id].
  match goal with |- context [fold_left release ?ds ?s0] =>
    destruct (fold_release ds s0) as (-> & -> & -> & -> & -> & -> & _) end.
  cbn. now repeat split.
Qed.

Lemma dispose_tidy s p : tidy s -> currentPanel s = Some p -> tidy (dispose p s).
Proof.
  intros Hs Hc. destruct (dispose_current s p Hs Hc) as (Hc' & Hr' & Hd' & Hn' & Hcl' & Hm').
  destruct Hs as [Hcur Hoth Hclo Hrel Hmail].
  split; rewrite ?Hc', ?Hr', ?Hd', ?Hn', ?Hcl', ?Hm'; try discriminate; auto.
  - intros q Hq _. destruct (decide (q = p)) as [->|Hne]; [left|].
    right. apply Hoth; [assumption | congruence].
  - intros q [->|Hin]%elem_of_cons; [apply (Hcur p Hc) | now apply Hclo].
  - intros d [->|[->|Hin]%elem_of_cons]%elem_of_cons;
      [left | left | right; now apply Hrel].
Qed.

Lemma step_tidy s op : tidy s -> tidy (step getUri s op).
Proof.
  intros Hs. unfold step. destruct op, (currentPanel s) as [p|] eqn:Hc;
    auto using render_tidy, close_tidy, dispose_tidy.
Qed.

Lemma run_tidy ops s : tidy s -> tidy (run getUri ops s).
Proof.
  unfold run. revert s. induction ops as [|op ops IH]; intros s Hs; [exact Hs|].
  cbn [fold_left]. apply IH, step_tidy, Hs.
Qed.

Lemma render_html s p :
  currentPanel s = None ->
  html (render getUri s) !! p
  = if decide (p = created s)
    then Some (_getWebviewContent
                 (getUri p ["webview-ui"; "build"; "assets"; "index.css"])
                 (getUri p ["webview-ui"; "build"; "assets"; "index.js"]))
    else html s !! p.
Proof.
  intros Hc. unfold render. rewrite Hc. cbn.
  destruct (decide (p = created s)) as [->|Hne].
  - apply lookup_insert_eq.
  - apply lookup_insert_ne. congruence.
Qed.

Lemma close_html s p : html (close p s) = html s.
Proof.
  unfold close. destruct (bool_decide _); [reflexivity|]. cbn.
  now destruct (bool_decide _).
Qed.

Lemma dispose_html s p : html (dispose p s) = html s.
Proof.
  unfold dispose.
  match goal with |- context [fold_left release ?ds ?s0] =>
    generalize ds; intros ds' end.
  assert (Hf : forall ds s0, html (fold_left release ds s0) = html s0).
  { induction ds as [|d ds IH]; intros s0; [reflexivity|]. cbn [fold_left]. now rewrite IH. }
  rewrite Hf. cbn. apply (close_html (set_currentPanel None s) p).
Qed.

Lemma step_html s op p :
  tidy s -> p < created s -> html (step getUri s op) !! p = html s !! p.
Proof.
  intros Hs Hp. unfold step. destruct op, (currentPanel s) as [q|] eqn:Hc;
    rewrite ?close_html, ?dispose_html; try reflexivity.
  - unfold render. now rewrite Hc.
  - rewrite render_html by assumption. destruct (decide _); [lia | reflexivity].
Qed.

Lemma step_created s op : created s <= created (step getUri s op).
Proof.
  unfold step. destruct op, (currentPanel s) as [q|] eqn:Hc; try lia.
  - unfold render. rewrite Hc. cbn. lia.
  - unfold render. rewrite Hc. cbn. lia.
  - unfold close. destruct (bool_decide _); [lia|]. cbn. destruct (bool_decide _); cbn; lia.
  - unfold dispose.
    match goal with |- context [fold_left release ?ds ?s0] =>
      destruct (fold_release ds s0) as (_ & _ & _ & -> & _) end.
    cbn. unfold close. destruct (bool_decide _); [cbn; lia|]. cbn.
    destruct (bool_decide _); cbn; lia.
Qed.

(** A panel that is closed and no longer the current one is out of reach:
    no later operation touches its subscriptions. *)
Lemma step_abandoned s op p :
  tidy s -> p ∈ closed s ->
  p ∈ closed (step getUri s op)
  /\ _disposables (step getUri s op) !! p = _disposables s !! p
  /\ filter (fun d => of_panel d = p) (released (step getUri s op))
     = filter (fun d => of_panel d = p) (released s).
Proof.
  intros Hs Hp. pose proof (closed_made s Hs p Hp) as Hlt.
  unfold step. destruct op, (currentPanel s) as [q|] eqn:Hc; auto.
  - unfold render. rewrite Hc. cbn. auto.
  - destruct (render_new s Hc) as (_ & _ & -> & -> & -> & _).
    split; [assumption|]. split; [|reflexivity].
    apply lookup_insert_ne. lia.
  - rewrite close_current by assumption. cbn. split; [now right | auto].
  - destruct (dispose_current s q Hs Hc) as (_ & -> & -> & _ & -> & _).
    assert (q <> p).
    { intros ->. destruct (current_open s Hs p Hc) as (_ & Hn & _). contradiction. }
    split; [now right|]. split; [now apply lookup_insert_ne|].
    rewrite !filter_cons_False by (cbn; congruence). reflexivity.
Qed.

Lemma run_abandoned ops s p :
  tidy s -> p ∈ closed s ->
  _disposables (run getUri ops s) !! p = _disposables s !! p
  /\ filter (fun d => of_panel d = p) (released (run getUri ops s))
     = filter (fun d => of_panel d = p) (released s).
Proof.
  unfold run. revert s. induction ops as [|op ops IH]; intros s Hs Hp; [auto|].
  cbn [fold_left]. destruct (step_abandoned s op p Hs Hp) as (Hp' & <- & <-).
  apply IH; [now apply step_tidy | assumption].
Qed.

(** X20: every panel that was created carries the page built by
    [_getWebviewContent] from the two asset addresses, whatever happened
    to the panel since. *)
Theorem panel_content ops p :
  let s := run getUri ops start in
  p < created s ->
  html s !! p
  = Some (_getWebviewContent
            (getUri p ["webview-ui"; "build"; "assets"; "index.css"])
            (getUri p ["webview-ui"; "build"; "assets"; "index.js"])).
Proof.
  cbn zeta. induction ops as [|op ops IH] using rev_ind; [cbn; lia|].
  unfold run in *. rewrite fold_left_app. cbn [fold_left].
  set (s := fold_left (step getUri) ops start) in *.
  assert (Hs : tidy s) by apply (run_tidy ops start start_tidy).
  intros Hp. destruct (decide (p < created s)) as [Hlt|Hge].
  - rewrite step_html by assumption. now apply IH.
  - revert Hp. unfold step. destruct op, (currentPanel s) as [q|] eqn:Hc;
      try (intros; lia).
    + unfold render. rewrite Hc. cbn. lia.
    + destruct (render_new s Hc) as (_ & -> & _). intros Hp.
      rewrite render_html by assumption. destruct (decide _); [reflexivity | lia].
    + pose proof (step_created s UserCloses) as Hle. unfold step in Hle. rewrite Hc in Hle.
      rewrite close_current by assumption. cbn. lia.
    + destruct (dispose_current s q Hs Hc) as (_ & _ & _ & -> & _). lia.
Qed.

(** X15: at any time the current panel is the one panel that was created
    and is not closed; there is never a second open one. *)
Theorem one_panel_at_a_time ops p :
  let s := run getUri ops start in
  currentPanel s = Some p <-> p < created s /\ (p ∉ closed s).
Proof.
  cbn zeta. pose proof (run_tidy ops start start_tidy) as Hs. split.
  - intros Hc. destruct (current_open _ Hs p Hc) as (? & ? & _). auto.
  - intros [Hlt Hopen].
    destruct (decide (currentPanel (run getUri ops start) = Some p)) as [|Hne];
      [assumption|].
    destruct Hopen. now apply (others_closed _ Hs).
Qed.

(** X16: the greeting is posted exactly once to every panel that was ever
    created, and nothing else is posted by the class itself. *)
Theorem one_greeting_per_panel ops :
  let s := run getUri ops start in
  mail s = map (fun p => (p, greeting)) (rev (seq 0 (created s))).
Proof. cbn zeta. apply (greeted _ (run_tidy ops start start_tidy)). Qed.

(** X17: while a panel is open, [render] only reveals it, however often it
    is called: no panel is created, no greeting posted, no listener
    subscribed. *)
Theorem render_while_open s p n :
  currentPanel s = Some p ->
  let s' := Nat.iter n (render getUri) s in
  currentPanel s' = Some p /\ created s' = created s /\ mail s' = mail s
  /\ _disposables s' = _disposables s /\ html s' = html s
  /\ revealed s' = repeat p n ++ revealed s.
Proof.
  intros Hc. cbn zeta. induction n as [|n IH]; [cbn; auto 10|].
  rewrite Nat.iter_succ. cbn [repeat]. destruct IH as (Hc' & Hn & Hm & Hd & Hh & Hr).
  set (t := Nat.iter n (render getUri) s) in *.
  assert (Hrev : render getUri t = reveal p t) by (unfold render; now rewrite Hc').
  rewrite Hrev. cbn. rewrite Hr. auto 10.
Qed.


(** X18: when the panel is closed by the user or by [createProject], the
    listener registered with [onDidDispose] runs without its instance: the
    current panel is forgotten, but the two subscriptions of the closed
    panel stay in its array and are never released afterwards. *)
Theorem closing_leaks_subscriptions ops later p :
  let s := run getUri ops start in
  currentPanel s = Some p ->
  let s' := run getUri later (close p s) in
  currentPanel (close p s) = None
  /\ _disposables s' !! p = Some (subscriptions p)
  /\ (forall d, d ∈ released s' -> of_panel d <> p).
Proof.
  cbn zeta. intros Hc. pose proof (run_tidy ops start start_tidy) as Hs.
  set (s := run getUri ops start) in *.
  destruct (current_open s Hs p Hc) as (Hlt & Hncl & Hnrel & Hd).
  assert (Hcl : p ∈ closed (close p s)).
  { rewrite close_current by assumption. left. }
  destruct (run_abandoned later (close p s) p (close_tidy s p Hs Hc) Hcl) as (Hd' & Hr').
  split; [now rewrite close_current|]. split.
  - rewrite Hd'. rewrite close_current by assumption. exact Hd.
  - intros d Hin He.
    assert (Hf : d ∈ filter (fun d => of_panel d = p) (released (close p s))).
    { rewrite <- Hr'. now apply list_elem_of_filter. }
    rewrite close_current in Hf by assumption. cbn in Hf.
    apply list_elem_of_filter in Hf as [_ Hf].
    apply (released_closed s Hs) in Hf. now rewrite He in Hf.
Qed.

(** X19: [dispose] called on the instance closes the panel, forgets it,
    and releases both subscriptions, the one made last first, leaving the
    array empty; calling it again changes nothing. *)
Theorem dispose_releases_all ops p :
  let s := run getUri ops start in
  currentPanel s = Some p ->
  let s' := dispose p s in
  currentPanel s' = None /\ p ∈ closed s'
  /\ _disposables s' !! p = Some []
  /\ released s'
     = {| event := DidDispose; of_panel := p |}
         :: {| event := DidReceiveMessage; of_panel := p |} :: released s
  /\ dispose p s' = s'.
Proof.
  cbn zeta. intros Hc. pose proof (run_tidy ops start start_tidy) as Hs.
  set (s := run getUri ops start) in *.
  destruct (dispose_current s p Hs Hc) as (Hc' & Hr' & Hd' & Hn' & Hcl' & Hm').
  split; [assumption|]. split; [rewrite Hcl'; left|].
  split; [rewrite Hd'; apply lookup_insert_eq|]. split; [assumption|].
  remember (dispose p s) as s' eqn:Es. clear Es.
  unfold dispose, close. cbn [closed set_currentPanel].
  rewrite bool_decide_eq_true_2 by (rewrite Hcl'; left).
  cbn [_disposables set_currentPanel]. rewrite Hd', lookup_insert_eq. cbn.
  destruct s'; cbn in *. subst. unfold set_disposables, set_currentPanel. cbn.
  f_equal. apply insert_insert_eq.
Qed.

End Class.

Lemma render_while_open_witness :
  let g := fun (_ : nat) (_ : list string) => "u" in
  let s := render g start in
  let s' := Nat.iter 3 (render g) s in
  currentPanel s' = Some 0 /\ created s' = created s /\ mail s' = mail s
  /\ _disposables s' = _disposables s /\ html s' = html s
  /\ revealed s' = repeat 0 3 ++ revealed s.
Proof.
  intros g s. apply (render_while_open g s 0 3). reflexivity.
Defined.

Lemma closing_leaks_subscriptions_witness :
  let g := fun (_ : nat) (_ : list string) => "u" in
  let s := run g [Render] start in
  let s' := run g [Render; Dispose] (close 0 s) in
  currentPanel (close 0 s) = None
  /\ _disposables s' !! 0 = Some (subscriptions 0)
  /\ (forall d, d ∈ released s' -> of_panel d <> 0).
Proof.
  intros g. apply (closing_leaks_subscriptions g [Render] [Render; Dispose] 0). reflexivity.
Defined.

Lemma dispose_releases_all_witness :
  let g := fun (_ : nat) (_ : list string) => "u" in
  let s := run g [Render; Render] start in
  let s' := dispose 0 s in
  currentPanel s' = None /\ 0 ∈ closed s'
  /\ _disposables s' !! 0 = Some []
  /\ released s'
     = {| event := DidDispose; of_panel := 0 |}
         :: {| event := DidReceiveMessage; of_panel := 0 |} :: released s
  /\ dispose 0 s' = s'.
Proof.
  intros g. apply (dispose_releases_all g [Render; Render] 0). reflexivity.
Defined.

Lemma panel_content_witness :
  let g := fun (p : nat) (segments : list string) => JSON.join segments in
  let s := run g [Render; UserCloses; Render] start in
  1 < created s
  /\ html s !! 1
     = Some (_getWebviewContent
               (g 1 ["webview-ui"; "build"; "assets"; "index.css"])
               (g 1 ["webview-ui"; "build"; "assets"; "index.js"])).
Proof.
  intros g s. assert (Hp : 1 < created s) by (vm_compute; lia).
  split; [exact Hp|]. apply (panel_content g [Render; UserCloses; Render] 1 Hp).
Defined.

End ExtensionFacts.

Section ExtensionBridge.
Import Webview.

Lemma token_not_hello now random : make_id now random <> "hello".
Proof.
  intros He. pose proof (make_id_digits now random) as Hd. rewrite He in Hd.
  cbn in Hd. discriminate.
Qed.

(** X21: whatever the panel class posts on its own (the greeting of
    [render]) falls through the wrapper on the page: at no time can it
    settle a pending [invoke] or detach a listener. *)
Theorem greeting_falls_through getUri eops page wops p m :
  (p, m) ∈ Extension.mail (Extension.run getUri eops Extension.start) ->
  let w := run wops (construct page) in
  dispatchEvent (wire m) w = w.
Proof.
  intros Hin w.
  rewrite (Extension.greeted _ (run_tidy getUri eops _ start_tidy)) in Hin.
  apply list_elem_of_In, in_map_iff in Hin as (q & [= _ <-] & _).
  apply fold_unmatched, Forall_forall. intros l Hl He. cbn in He.
  assert (Hp : l_id l ∈ pending_ids w).
  { apply list_elem_of_In, in_map, list_elem_of_In, Hl. }
  pose proof (run_pending wops (construct page)) as Hsub.
  rewrite construct_pending in Hsub. cbn [app] in Hsub.
  apply (elem_of_sublist _ _ _ Hp) in Hsub.
  apply list_elem_of_In, in_map_iff in Hsub as ([n r] & Hid & _). cbn in Hid.
  rewrite <- He in Hid. now apply token_not_hello in Hid.
Qed.

Lemma greeting_falls_through_witness :
  let g := fun (_ : nat) (_ : list string) => "u" in
  let w := run [DoInvoke Examples.say_hello 7 "0.25"] (construct Examples.vscode_page) in
  dispatchEvent (wire Extension.greeting) w = w.
Proof.
  intros g. apply (greeting_falls_through g [Extension.Render] Examples.vscode_page
                     [DoInvoke Examples.say_hello 7 "0.25"] 0 Extension.greeting).
  cbn. left.
Defined.

End ExtensionBridge.

(** ** The [createProject] handler *)
Section ProjectFacts.
Import Project.

Lemma after_closing_none wanted names :
  after_closing wanted names = None <-> wanted ∉ names.
Proof.
  induction names as [|n names IH]; cbn.
  - split; [intros _ Hin; now apply elem_of_nil in Hin | reflexivity].
  - destruct (String.eqb_spec n wanted) as [->|Hne].
    + split; [discriminate | intros Hn; destruct Hn; left].
    + rewrite IH. split.
      * intros Hn [->|Hin]%elem_of_cons; [congruence | contradiction].
      * intros Hn Hin. apply Hn. now right.
Qed.

Lemma occupied_run location w :
  occupied location w
  = (match files w !! location with
     | Some File => Failed "ENOTDIR"
     | Some (Directory entries) => Done (negb (Nat.eqb (length entries) 0))
     | None => Done false
     end, w).
Proof.
  unfold occupied, bind, pathExists, readdir, ret.
  destruct (files w !! location) as [[|entries]|] eqn:Hf.
  - rewrite bool_decide_eq_true_2 by eauto. now rewrite Hf.
  - rewrite bool_decide_eq_true_2 by eauto. now rewrite Hf.
  - rewrite bool_decide_eq_false_2 by (intros [? ?]; discriminate). reflexivity.
Qed.

Lemma removed_self rt d : removed rt d d = true.
Proof. unfold removed. now rewrite String.eqb_refl. Qed.

(** What is on disk after [remove]. *)
Lemma remove_files rt d w p :
  files (snd (remove rt d w)) !! p
  = if removed rt d p then None else files w !! p.
Proof.
  cbn [remove snd files]. destruct (removed rt d p) eqn:Hr.
  - apply map_lookup_filter_None_2. right. intros x _. cbn. congruence.
  - destruct (files w !! p) as [x|] eqn:Hf.
    + now apply map_lookup_filter_Some_2.
    + apply map_lookup_filter_None_2. now left.
Qed.

(** The handler once the location is known. *)
Lemma createProject_run rt args w l :
  field "location" (Panel.arg 0 args) = Some (VStr l) ->
  createProject rt args w
  = let data := Panel.arg 0 args in
    let location := path_resolve rt l in
    match files w !! location with
    | Some File => (Failed "ENOTDIR", w)
    | Some (Directory (_ :: _)) =>
        match showInformationMessage "Project already exists" ["Yes"; "No"] w with
        | (Done None, w) => (Done VUndefined, w)
        | (Done (Some _), w) => scaffold rt data location (snd (remove rt location w))
        | (Failed message, w) => (Failed message, w)
        | (Pending, w) => (Pending, w)
        end
    | _ => scaffold rt data location w
    end.
Proof.
  intros Hl. unfold createProject, resolve_location. rewrite Hl.
  unfold bind at 1. unfold ret at 1. unfold bind at 1. rewrite occupied_run.
  cbn zeta. destruct (files w !! path_resolve rt l) as [[|[|e entries]]|];
    try reflexivity.
  cbn [length Nat.eqb negb]. unfold bind at 1.
  destruct (showInformationMessage _ _ w) as [[[b|]| |] w']; reflexivity.
Qed.

(** What the second half of the handler does. *)
Lemma scaffold_run rt data location w :
  scaffold rt data location w
  = match spread rt (default VUndefined (field "flags" data)) with
    | None => (Failed "TypeError", w)
    | Some flags =>
        let t := {| name := "Create Project";
                    cwd := path_dirname rt location;
                    shellPath := "C:/Users/rxliuli/AppData/Local/pnpm/pnpm.CMD";
                    shellArgs := shell_args rt
                      ([VStr "create";
                        default VUndefined (field "command" data);
                        VStr (path_basename rt location);
                        VObj [("--", VBool (negb (is_string "yarn"
                                 (default VUndefined (field "packageManager" data)))))]]
                       ++ flags) |} in
        match after_closing "Create Project" (closing w) with
        | None =>
            (Pending,
             {| files := files w; answers := answers w; closing := [];
                prompts := prompts w; terminals := t :: terminals w;
                shown := length (terminals w) :: shown w;
                console := console w; opened := opened w;
                panel_open := panel_open w |})
        | Some later =>
            (Done VUndefined,
             {| files := files w; answers := answers w; closing := later;
                prompts := prompts w; terminals := t :: terminals w;
                shown := length (terminals w) :: shown w;
                console := "执行完了" :: console w;
                opened := (location, true) :: opened w;
                panel_open := false |})
        end
    end.
Proof.
  unfold scaffold, arguments. unfold bind at 1.
  destruct (spread rt _) as [flags|]; [|reflexivity].
  unfold ret at 1, bind at 1, createTerminal at 1, bind at 1, show at 1, bind at 1,
    terminalClosed at 1.
  cbn [files answers closing prompts terminals shown console opened panel_open].
  destruct (after_closing _ _); reflexivity.
Qed.

(** Called with no argument the registered handler throws, on whichever
    machine, and shows nothing. *)
Lemma handler_without_data rt w h : handler rt w [] h = (Thrown "TypeError", h).
Proof.
  unfold handler, createProject, resolve_location, bind, throw. cbn.
  rewrite Nat.sub_diag. now destruct h.
Qed.

(** X22: a request whose first argument has no string under [location]
    (no argument at all, [null], a string, a number for a location)
    is rejected before anything is asked, removed or started. *)
Theorem ill_formed_request_rejected rt args w :
  (forall l, field "location" (Panel.arg 0 args) <> Some (VStr l)) ->
  createProject rt args w = (Failed "TypeError", w).
Proof.
  intros Hbad. unfold createProject, resolve_location, bind, throw.
  destruct (field "location" (Panel.arg 0 args)) as [[| |?|?|l|?|?]|] eqn:He;
    try reflexivity.
  now destruct (Hbad l).
Qed.

Lemma ill_formed_request_rejected_witness :
  let w := Scenes.desk Scenes.taken [Some Yes] ["Create Project"] in
  createProject Scenes.runtime [VObj [("location", VNum 3)]] w = (Failed "TypeError", w).
Proof.
  intros w. apply (ill_formed_request_rejected Scenes.runtime [VObj [("location", VNum 3)]] w).
  intros l. cbn. discriminate.
Defined.

(** X23: the handler never reads which button was pressed: pressing [No]
    has exactly the outcome and the effects of pressing [Yes]. *)
Theorem button_is_not_read rt args w later :
  let pressing b := createProject rt args (answering (Some b :: later) w) in
  fst (pressing No) = fst (pressing Yes)
  /\ answering [] (snd (pressing No)) = answering [] (snd (pressing Yes)).
Proof.
  cbn zeta.
  destruct (field "location" (Panel.arg 0 args)) as [[| |?|?|l|?|?]|] eqn:He.
  5:{ rewrite !createProject_run with (l := l) by assumption. cbn zeta.
      cbn [answering files].
      destruct (files w !! path_resolve rt l) as [[|[|e entries]]|];
        try (split; reflexivity);
        rewrite ?scaffold_run; cbn [answering closing];
        destruct (spread rt _); try (split; reflexivity);
        destruct (after_closing _ _); split; reflexivity. }
  all: rewrite !ill_formed_request_rejected by (intros l'; congruence);
    split; reflexivity.
Qed.

(** X24: when the location is a directory with entries and the user
    answers the prompt, be it with [No], the directory is removed. *)
Theorem refusal_removes_project rt args w l e entries later :
  field "location" (Panel.arg 0 args) = Some (VStr l) ->
  files w !! path_resolve rt l = Some (Directory (e :: entries)) ->
  answers w = Some No :: later ->
  let w' := snd (createProject rt args w) in
  files w' !! path_resolve rt l = None
  /\ prompts w' = ("Project already exists", ["Yes"; "No"]) :: prompts w.
Proof.
  intros Hl Hdir Ha. rewrite createProject_run with (l := l) by assumption.
  cbn zeta. rewrite Hdir. unfold showInformationMessage. rewrite Ha.
  assert (Hgone : files (snd (remove rt (path_resolve rt l)
                     (snd (showInformationMessage "Project already exists" ["Yes"; "No"] w))))
                  !! path_resolve rt l = None).
  { now rewrite remove_files, removed_self. }
  unfold showInformationMessage in Hgone. rewrite Ha in Hgone. cbn [snd] in Hgone.
  rewrite scaffold_run.
  destruct (spread rt _); [destruct (after_closing _ _)|];
    (split; [exact Hgone | reflexivity]).
Qed.

Lemma refusal_removes_project_witness :
  let w := Scenes.desk Scenes.taken [Some No] [] in
  let w' := snd (createProject Scenes.runtime (Scenes.request (VArr [])) w) in
  files w' !! "/work/app" = None
  /\ prompts w' = ("Project already exists", ["Yes"; "No"]) :: prompts w.
Proof.
  intros w.
  apply (refusal_removes_project Scenes.runtime (Scenes.request (VArr [])) w
           "/work/app" "package.json" [] []); reflexivity.
Defined.

(** X25: dismissing the prompt ends the handler at once: it returns
    [undefined], the directory is kept, no terminal is made, no folder
    opened, and the panel stays. *)
Theorem dismissal_keeps_project rt args w l e entries later :
  field "location" (Panel.arg 0 args) = Some (VStr l) ->
  files w !! path_resolve rt l = Some (Directory (e :: entries)) ->
  answers w = None :: later ->
  let (r, w') := createProject rt args w in
  r = Done VUndefined /\ files w' = files w /\ terminals w' = terminals w
  /\ opened w' = opened w /\ panel_open w' = panel_open w /\ answers w' = later.
Proof.
  intros Hl Hdir Ha. rewrite createProject_run with (l := l) by assumption.
  cbn zeta. rewrite Hdir. unfold showInformationMessage. rewrite Ha. cbn. auto 10.
Qed.

Lemma dismissal_keeps_project_witness :
  let w := Scenes.desk Scenes.taken [None; Some Yes] ["Create Project"] in
  let (r, w') := createProject Scenes.runtime (Scenes.request (VArr [])) w in
  r = Done VUndefined /\ files w' = files w /\ terminals w' = terminals w
  /\ opened w' = opened w /\ panel_open w' = panel_open w /\ answers w' = [Some Yes].
Proof.
  intros w.
  apply (dismissal_keeps_project Scenes.runtime (Scenes.request (VArr [])) w
           "/work/app" "package.json" [] [Some Yes]); reflexivity.
Defined.


(** X27: the panel is only disposed at the very end: if the handler closes
    it, a terminal called [Create Project] was made in the parent of the
    location, one of that name was closed, the location was opened in a
    new window, and the handler returns [undefined]. *)
Theorem panel_disposed_last rt args w :
  let (r, w') := createProject rt args w in
  panel_open w = true -> panel_open w' = false ->
  r = Done VUndefined
  /\ "Create Project" ∈ closing w
  /\ exists l t,
       field "location" (Panel.arg 0 args) = Some (VStr l)
       /\ terminals w' = t :: terminals w
       /\ name t = "Create Project"
       /\ cwd t = path_dirname rt (path_resolve rt l)
       /\ shown w' = length (terminals w) :: shown w
       /\ opened w' = (path_resolve rt l, true) :: opened w.
Proof.
  assert (Hs : forall l w0,
    field "location" (Panel.arg 0 args) = Some (VStr l) ->
    let (r, w') := scaffold rt (Panel.arg 0 args) (path_resolve rt l) w0 in
    panel_open w0 = true -> panel_open w' = false ->
    r = Done VUndefined
    /\ "Create Project" ∈ closing w0
    /\ exists l t,
         field "location" (Panel.arg 0 args) = Some (VStr l)
         /\ terminals w' = t :: terminals w0
         /\ name t = "Create Project"
         /\ cwd t = path_dirname rt (path_resolve rt l)
         /\ shown w' = length (terminals w0) :: shown w0
         /\ opened w' = (path_resolve rt l, true) :: opened w0).
  { intros l w0 Hl. rewrite scaffold_run.
    destruct (spread rt _); [|congruence]. cbn zeta.
    destruct (after_closing _ _) eqn:Hc; cbn; [|congruence].
    intros _ _. split; [reflexivity|]. split.
    - destruct (decide ("Create Project" ∈ closing w0)) as [|Hn]; [assumption|].
      apply after_closing_none in Hn. congruence.
    - eexists l, _. repeat split; try assumption; reflexivity. }
  destruct (field "location" (Panel.arg 0 args)) as [[| |?|?|l|?|?]|] eqn:He.
  5:{ rewrite createProject_run with (l := l) by assumption. cbn zeta.
      destruct (files w !! path_resolve rt l) as [[|[|e entries]]|] eqn:Hf;
        try (apply (Hs l w eq_refl)); try congruence.
      unfold showInformationMessage. destruct (answers w) as [|[b|] later];
        cbn [fst snd remove]; try (cbn; congruence).
      match goal with |- context [scaffold ?a ?b ?c ?d] =>
        specialize (Hs l d eq_refl); destruct (scaffold a b c d) end.
      exact Hs. }
  all: rewrite ill_formed_request_rejected by (intros l'; congruence); congruence.
Qed.

Lemma panel_disposed_last_witness :
  let w := Scenes.desk ∅ [] ["bash"; "Create Project"] in
  let args := Scenes.request (VArr []) in
  panel_open w = true
  /\ panel_open (snd (createProject Scenes.runtime args w)) = false
  /\ fst (createProject Scenes.runtime args w) = Done VUndefined
  /\ "Create Project" ∈ closing w.
Proof.
  intros w args. pose proof (panel_disposed_last Scenes.runtime args w) as H.
  assert (Hopen : panel_open w = true) by reflexivity.
  assert (Hclosed : panel_open (snd (createProject Scenes.runtime args w)) = false)
    by reflexivity.
  destruct (createProject Scenes.runtime args w) as [r w'].
  destruct (H Hopen Hclosed) as (Hr & Hin & _). auto.
Defined.

(** X28: a request whose [flags] cannot be iterated fails only after the
    existing project has been removed: the directory is gone, and no
    terminal is made. *)
Theorem removal_precedes_failure rt args w l e entries b later :
  field "location" (Panel.arg 0 args) = Some (VStr l) ->
  spread rt (default VUndefined (field "flags" (Panel.arg 0 args))) = None ->
  files w !! path_resolve rt l = Some (Directory (e :: entries)) ->
  answers w = Some b :: later ->
  let (r, w') := createProject rt args w in
  r = Failed "TypeError" /\ files w' !! path_resolve rt l = None
  /\ terminals w' = terminals w.
Proof.
  intros Hl Hf Hdir Ha. rewrite createProject_run with (l := l) by assumption.
  cbn zeta. rewrite Hdir. unfold showInformationMessage. rewrite Ha.
  rewrite scaffold_run, Hf. cbn [fst snd].
  split; [reflexivity|]. split; [|reflexivity].
  now rewrite remove_files, removed_self.
Qed.

Lemma removal_precedes_failure_witness :
  let w := Scenes.desk Scenes.taken [Some Yes] ["Create Project"] in
  let (r, w') := createProject Scenes.runtime (Scenes.request VUndefined) w in
  r = Failed "TypeError" /\ files w' !! "/work/app" = None
  /\ terminals w' = terminals w.
Proof.
  intros w.
  apply (removal_precedes_failure Scenes.runtime (Scenes.request VUndefined) w
           "/work/app" "package.json" [] Yes []); reflexivity.
Defined.

(** X29: with nothing at the location, the handler asks nothing, makes and
    shows its terminal, and then waits: as long as no terminal called
    [Create Project] is closed it does not return, opens no folder and
    leaves the panel. *)
Theorem waits_for_terminal rt args w l flags :
  field "location" (Panel.arg 0 args) = Some (VStr l) ->
  spread rt (default VUndefined (field "flags" (Panel.arg 0 args))) = Some flags ->
  files w !! path_resolve rt l = None ->
  "Create Project" ∉ closing w ->
  let (r, w') := createProject rt args w in
  r = Pending /\ prompts w' = prompts w /\ files w' = files w
  /\ length (terminals w') = S (length (terminals w))
  /\ shown w' = length (terminals w) :: shown w
  /\ opened w' = opened w /\ panel_open w' = panel_open w.
Proof.
  intros Hl Hf Hnone Hnot. apply after_closing_none in Hnot.
  rewrite createProject_run with (l := l) by assumption. cbn zeta. rewrite Hnone.
  rewrite scaffold_run, Hf, Hnot. cbn. auto 10.
Qed.

Lemma waits_for_terminal_witness :
  let w := Scenes.desk ∅ [] ["bash"; "zsh"] in
  let (r, w') := createProject Scenes.runtime (Scenes.request (VArr [VStr "--ts"])) w in
  r = Pending /\ prompts w' = prompts w /\ files w' = files w
  /\ length (terminals w') = S (length (terminals w))
  /\ shown w' = length (terminals w) :: shown w
  /\ opened w' = opened w /\ panel_open w' = panel_open w.
Proof.
  intros w.
  apply (waits_for_terminal Scenes.runtime (Scenes.request (VArr [VStr "--ts"])) w
           "/work/app" [VStr "--ts"]); try reflexivity.
  cbn. intros [?|[?|Hin]%elem_of_cons]%elem_of_cons;
    [discriminate | discriminate | now apply elem_of_nil in Hin].
Defined.

End ProjectFacts.
